(** * Worten scraper: the search and extraction pipeline of
    [products/services/scraper.py], embedded in Rocq.

    Python values are modelled as the code uses them: a [str] is a sequence
    of Unicode code points, a [Decimal] is a sign, a coefficient and an
    exponent (or a special value), decoded JSON is a tree of dynamically
    typed values, and the methods of [WortenScraper] run in a state and
    exception monad over the scraper object and its environment. *)

From Stdlib Require Import List NArith ZArith Bool String Ascii Lia.
From Stdlib Require Import DecimalString.
Import ListNotations.

Local Open Scope N_scope.

(** ** Python [str]: sequences of code points *)

Definition pystr := list N.

(** Source literals are written as Rocq strings, whose bytes are the UTF-8
    encoding of the text; [py] decodes them into code points. *)
Fixpoint utf8_decode (bs : list N) : pystr :=
  match bs with
  | [] => []
  | b :: r =>
    if b <? 128 then b :: utf8_decode r
    else if b <? 224 then
      match r with
      | b1 :: r1 => ((b - 192) * 64 + (b1 - 128)) :: utf8_decode r1
      | _ => []
      end
    else if b <? 240 then
      match r with
      | b1 :: b2 :: r2 =>
        ((b - 224) * 4096 + (b1 - 128) * 64 + (b2 - 128)) :: utf8_decode r2
      | _ => []
      end
    else
      match r with
      | b1 :: b2 :: b3 :: r3 =>
        ((b - 240) * 262144 + (b1 - 128) * 4096 + (b2 - 128) * 64 + (b3 - 128))
          :: utf8_decode r3
      | _ => []
      end
  end.

Definition py (s : string) : pystr :=
  utf8_decode (map N_of_ascii (list_ascii_of_string s)).

Fixpoint str_eqb (a b : pystr) : bool :=
  match a, b with
  | [], [] => true
  | x :: a', y :: b' => (x =? y) && str_eqb a' b'
  | _, _ => false
  end.

(** [str.isspace] per character, which is also what [\s] matches in a
    [str] pattern and what [split()] and [strip()] remove. *)
Definition is_space (c : N) : bool :=
  ((9 <=? c) && (c <=? 13)) || ((28 <=? c) && (c <=? 32))
  || (c =? 133) || (c =? 160) || (c =? 5760)
  || ((8192 <=? c) && (c <=? 8202))
  || (c =? 8232) || (c =? 8233) || (c =? 8239) || (c =? 8287) || (c =? 12288).

(** The zero digits of the Unicode decimal-digit runs (category Nd, Unicode
    14): each run is ten consecutive code points valued 0 to 9.  [\d]
    matches exactly these characters and [Decimal] reads them by value. *)
Definition nd_zeros : list N :=
  [48; 1632; 1776; 1984; 2406; 2534; 2662; 2790; 2918; 3046; 3174; 3302;
   3430; 3558; 3664; 3792; 3872; 4160; 4240; 6112; 6160; 6470; 6608; 6784;
   6800; 6992; 7088; 7232; 7248; 42528; 43216; 43264; 43472; 43504; 43600;
   44016; 65296; 66720; 68912; 69734; 69872; 69942; 70096; 70384; 70736;
   70864; 71248; 71360; 71472; 71904; 72016; 72784; 73040; 73120; 92768;
   92864; 93008; 120782; 120792; 120802; 120812; 120822; 123200; 123632;
   125264; 130032].

Fixpoint digit_in (zeros : list N) (c : N) : option N :=
  match zeros with
  | [] => None
  | z :: zs => if (z <=? c) && (c <? z + 10) then Some (c - z)
               else digit_in zs c
  end.

Definition digit_value (c : N) : option N := digit_in nd_zeros c.

Definition is_digit (c : N) : bool :=
  match digit_value c with Some _ => true | None => false end.

(** [s.startswith(p)] *)
Fixpoint startswith (s p : pystr) : bool :=
  match p, s with
  | [], _ => true
  | x :: p', y :: s' => (x =? y) && startswith s' p'
  | _ :: _, [] => false
  end.

(** [p in s] *)
Fixpoint str_in (p s : pystr) : bool :=
  startswith s p || match s with [] => false | _ :: s' => str_in p s' end.

(** [x in l] for a collection of strings *)
Definition str_mem (x : pystr) (l : list pystr) : bool :=
  existsb (str_eqb x) l.

(** [s.replace(old, new)] for a non-empty [old]: every occurrence, left to
    right, without overlap.  [skip] counts the characters of the occurrence
    just replaced that are still to be dropped. *)
Fixpoint replace_from (old new : pystr) (skip : nat) (s : pystr) : pystr :=
  match s with
  | [] => []
  | c :: s' =>
    match skip with
    | S k => replace_from old new k s'
    | O => if startswith s old
           then new ++ replace_from old new (pred (List.length old)) s'
           else c :: replace_from old new O s'
    end
  end.

Definition replace (s old new : pystr) : pystr := replace_from old new O s.

Fixpoint lstrip (s : pystr) : pystr :=
  match s with
  | c :: s' => if is_space c then lstrip s' else s
  | [] => []
  end.

(** [s.strip()] *)
Definition strip (s : pystr) : pystr := rev (lstrip (rev (lstrip s))).

(** [s.split()]: the maximal runs of non-whitespace characters; [cur] is
    the run being read, reversed. *)
Fixpoint split_from (cur : pystr) (s : pystr) : list pystr :=
  match s with
  | [] => match cur with [] => [] | _ => [rev cur] end
  | c :: s' =>
    if is_space c
    then match cur with
         | [] => split_from [] s'
         | _ => rev cur :: split_from [] s'
         end
    else split_from (c :: cur) s'
  end.

Definition split (s : pystr) : list pystr := split_from [] s.

(** [sep.join(l)] *)
Fixpoint join (sep : pystr) (l : list pystr) : pystr :=
  match l with
  | [] => []
  | [x] => x
  | x :: l' => x ++ sep ++ join sep l'
  end.

(** [s.lower()].  ASCII capitals map to their small letters; the two
    characters outside ASCII whose lower case contains an ASCII letter are
    U+0130 (to "i" and U+0307, the only mapping that changes the length) and
    U+212A (to "k").  Every other character is kept: its lower case is again
    outside ASCII, and the code only ever tests the result against ASCII
    text. *)
Definition lower_char (c : N) : pystr :=
  if (65 <=? c) && (c <=? 90) then [c + 32]
  else if c =? 304 then [105; 775]
  else if c =? 8490 then [107]
  else [c].

Definition lower (s : pystr) : pystr := flat_map lower_char s.

(** [s[:n]] *)
Definition upto (n : nat) (s : pystr) : pystr := firstn n s.

(** ** Exceptions and results *)

(** The classes below are the ones the code tells apart or can meet; all of
    them derive from [Exception].  An instance of a subclass of
    [WebDriverException] (a Selenium timeout, a missing element) counts as
    [WebDriverException], and [RequestsTimeout] is the subclass
    [requests.Timeout] of [RequestException]. *)
Inductive exn_class :=
| WebDriverException | RequestsTimeout | RequestException
| NameError | ImportError | AttributeError | TypeError | KeyError | IndexError
| InvalidOperation | OtherException.

Record exn := mk_exn { exn_kind : exn_class; exn_str : pystr }.

(** An error raised by the interpreter or by [decimal]: the handlers above
    such errors never read the message. *)
Definition error_of (k : exn_class) : exn := mk_exn k [].

Inductive outcome (A : Type) :=
| Return (a : A)
| Raise (e : exn).
Arguments Return {A} a.
Arguments Raise {A} e.

Definition obind {A B} (x : outcome A) (f : A -> outcome B) : outcome B :=
  match x with
  | Return a => f a
  | Raise e => Raise e
  end.

Notation "'let?' x ':=' a 'in' b" := (obind a (fun x => b))
  (at level 10, x name, a at level 100, b at level 200).

(** ** [decimal.Decimal] *)

Inductive Decimal :=
| Finite (negative : bool) (coefficient : N) (exponent : Z)
| Infinite (negative : bool)
| NaN (negative signaling : bool) (payload : N).

Fixpoint take_while (p : N -> bool) (s : pystr) : pystr :=
  match s with
  | c :: s' => if p c then c :: take_while p s' else []
  | [] => []
  end.

Fixpoint drop_while (p : N -> bool) (s : pystr) : pystr :=
  match s with
  | c :: s' => if p c then drop_while p s' else s
  | [] => []
  end.

(** The number written by a run of decimal digits, and its length without
    leading zeros (a lone zero counts one digit). *)
Definition digits_value (ds : pystr) : N :=
  fold_left (fun a c => 10 * a + match digit_value c with Some d => d | None => 0 end)
            ds 0.

Definition digit_is_zero (c : N) : bool :=
  match digit_value c with Some 0 => true | _ => false end.

Definition significant_digits (ds : pystr) : nat :=
  Nat.max 1 (List.length (drop_while digit_is_zero ds)).

Definition ascii_lower (s : pystr) : pystr :=
  map (fun c => if (65 <=? c) && (c <=? 90) then c + 32 else c) s.

(** A sign, when the text starts with one. *)
Definition read_sign (s : pystr) : bool * pystr :=
  match s with
  | 45 :: r => (true, r)
  | 43 :: r => (false, r)
  | _ => (false, s)
  end.

(** The bounds that the exact conversion of a 64-bit build enforces. *)
Definition exponent_ok (digits : pystr) (e : Z) : bool :=
  ((-1999999999999999997 <=? e)
   && (e + Z.of_nat (significant_digits digits) - 1 <=? 999999999999999999))%Z.

(** [digits . digits e sign digits]: at least one digit before the
    exponent, and at least one in the exponent when there is one. *)
Definition read_number (neg : bool) (s : pystr) : outcome Decimal :=
  let ip := take_while is_digit s in
  let r := drop_while is_digit s in
  let '(fp, r) :=
    match r with
    | 46 :: r' => (take_while is_digit r', drop_while is_digit r')
    | _ => ([], r)
    end in
  match ip ++ fp with
  | [] => Raise (error_of InvalidOperation)
  | ds =>
    let finish (e : Z) :=
      let e' := (e - Z.of_nat (List.length fp))%Z in
      if exponent_ok ds e'
      then Return (Finite neg (digits_value ds) e')
      else Raise (error_of InvalidOperation) in
    match r with
    | [] => finish 0%Z
    | c :: r' =>
      if (c =? 101) || (c =? 69) then
        let '(eneg, r'') := read_sign r' in
        match take_while is_digit r'', drop_while is_digit r'' with
        | (_ :: _) as es, [] =>
          let m := Z.of_N (digits_value es) in
          finish (if eneg then (- m)%Z else m)
        | _, _ => Raise (error_of InvalidOperation)
        end
      else Raise (error_of InvalidOperation)
    end
  end.

(** [Infinity], [Inf], [NaN] and [sNaN] in any ASCII case, the last two
    with an optional payload of digits. *)
Definition read_special (neg : bool) (s : pystr) : outcome Decimal :=
  let l := ascii_lower s in
  if str_eqb l (py "inf") || str_eqb l (py "infinity") then Return (Infinite neg)
  else
    let payload (sig : bool) (r : pystr) :=
      match drop_while is_digit r with
      | [] => Return (NaN neg sig (digits_value r))
      | _ => Raise (error_of InvalidOperation)
      end in
    if startswith l (py "nan") then payload false (skipn 3 s)
    else if startswith l (py "snan") then payload true (skipn 4 s)
    else Raise (error_of InvalidOperation).

(** [Decimal(s)] for a [str]: surrounding whitespace and all underscores
    are dropped first. *)
Definition Decimal_of_str (s : pystr) : outcome Decimal :=
  let s := filter (fun c => negb (c =? 95)) (strip s) in
  let '(neg, r) := read_sign s in
  match r with
  | [] => Raise (error_of InvalidOperation)
  | c :: _ =>
    if is_digit c || (c =? 46) then read_number neg r else read_special neg r
  end.

(** [d > 0]: comparing a NaN signals [InvalidOperation]. *)
Definition Decimal_gt0 (d : Decimal) : outcome bool :=
  match d with
  | Finite neg c _ => Return (negb neg && (0 <? c))
  | Infinite neg => Return (negb neg)
  | NaN _ _ _ => Raise (error_of InvalidOperation)
  end.

(** [bool(d)] *)
Definition Decimal_bool (d : Decimal) : bool :=
  match d with
  | Finite _ c _ => negb (c =? 0)
  | _ => true
  end.

(** The value is positive: what [price > 0] means for a finite decimal. *)
Definition positive (d : Decimal) : Prop :=
  match d with
  | Finite neg c _ => neg = false /\ 0 < c
  | Infinite neg => neg = false
  | NaN _ _ _ => False
  end.

(** ** PriceParser: [WortenScraper._parse_price] *)

(** [re.sub] of the class [€EUR\s] by the empty string. *)
Definition strip_currency (text : pystr) : pystr :=
  filter (fun c => negb ((c =? 8364) || (c =? 69) || (c =? 85) || (c =? 82)
                         || is_space c)) text.

(** The text the pattern matches at a position that holds a digit: the
    quantifiers are greedy and nothing after them can fail. *)
Definition number_at (s : pystr) : pystr :=
  let ip := take_while is_digit s in
  match drop_while is_digit s with
  | 46 :: r => ip ++ 46 :: take_while is_digit r
  | _ => ip
  end.

(** [re.search] for one or more [\d], an optional point and any number of
    [\d]: group 1 of the leftmost match. *)
Fixpoint search_number (s : pystr) : option pystr :=
  match s with
  | [] => None
  | c :: s' => if is_digit c then Some (number_at s) else search_number s'
  end.

Definition _parse_price (text : pystr) : option Decimal :=
  match text with
  | [] => None
  | _ =>
    let cleaned := strip_currency text in
    let cleaned :=
      if str_in (py ",") cleaned && str_in (py ".") cleaned
      then replace (replace cleaned (py ".") []) (py ",") (py ".")
      else if str_in (py ",") cleaned
      then replace cleaned (py ",") (py ".")
      else cleaned in
    match search_number cleaned with
    | Some group1 =>
      match (let? value := Decimal_of_str group1 in
             let? pos := Decimal_gt0 value in
             Return (if pos then Some value else None)) with
      | Return (Some value) => Some value
      | Return None => None
      | Raise _ => None
      end
    | None => None
    end
  end.

(** ** Decoded JSON: dynamically typed Python values *)

(** A [float] is carried by what the code can observe of it: its [str()]
    text and whether it is non-zero. *)
Record pyfloat := mk_float { float_str : pystr; float_nonzero : bool }.

#[local] Set Warnings "-register-all".
Inductive pyval :=
| PNone
| PBool (b : bool)
| PInt (z : Z)
| PFloat (f : pyfloat)
| PStr (s : pystr)
| PList (l : list pyval)
| PDict (d : list (pystr * pyval)).

(** Truth value of a Python object. *)
Definition truthy (v : pyval) : bool :=
  match v with
  | PNone => false
  | PBool b => b
  | PInt z => negb (z =? 0)%Z
  | PFloat f => float_nonzero f
  | PStr s => match s with [] => false | _ => true end
  | PList l => match l with [] => false | _ => true end
  | PDict d => match d with [] => false | _ => true end
  end.

(** [a or b] *)
Definition py_or (a b : pyval) : pyval := if truthy a then a else b.

Fixpoint lookup (k : pystr) (d : list (pystr * pyval)) : option pyval :=
  match d with
  | [] => None
  | (k', v) :: d' => if str_eqb k k' then Some v else lookup k d'
  end.

(** [x.get(k, default)]: only a [dict] has the method. *)
Definition py_get (x : pyval) (k : pystr) (default : pyval) : outcome pyval :=
  match x with
  | PDict d => Return (match lookup k d with Some v => v | None => default end)
  | _ => Raise (error_of AttributeError)
  end.

(** [x[0]] *)
Definition py_first (x : pyval) : outcome pyval :=
  match x with
  | PList (v :: _) => Return v
  | PStr (c :: _) => Return (PStr [c])
  | PList [] | PStr [] => Raise (error_of IndexError)
  | PDict _ => Raise (error_of KeyError)
  | _ => Raise (error_of TypeError)
  end.

(** [str(z)] for an [int] *)
Definition str_int (z : Z) : pystr := py (NilZero.string_of_int (Z.to_int z)).

(** [Decimal(str(v))].  The text of a list or of a dict opens with a
    bracket or a brace, so it is never a numeric string. *)
Definition Decimal_str (v : pyval) : outcome Decimal :=
  match v with
  | PNone => Decimal_of_str (py "None")
  | PBool b => Decimal_of_str (if b then py "True" else py "False")
  | PInt z => Decimal_of_str (str_int z)
  | PFloat f => Decimal_of_str (float_str f)
  | PStr s => Decimal_of_str s
  | PList _ | PDict _ => Raise (error_of InvalidOperation)
  end.

(** ** ResultRecord: the dataclass [ScrapedProduct] *)

(** [name], [seller] and [is_available] hold whatever the code stores in
    them, which on the JSON path is a value taken from the payload. *)
Record ScrapedProduct := mkScrapedProduct {
  name : pyval;
  url : option pystr;
  price : option Decimal;
  seller : pyval;
  is_available : pyval;
  error : option pystr
}.

(** [ScrapedProduct()]: the declared defaults. *)
Definition ScrapedProduct_defaults : ScrapedProduct :=
  {| name := PNone; url := None; price := None; seller := PNone;
     is_available := PBool false; error := None |}.

(** [ScrapedProduct(error=msg)], also written with an explicit
    [is_available=False]. *)
Definition error_record (msg : pystr) : ScrapedProduct :=
  {| name := PNone; url := None; price := None; seller := PNone;
     is_available := PBool false; error := Some msg |}.

Definition set_url (r : ScrapedProduct) (u : pystr) : ScrapedProduct :=
  {| name := name r; url := Some u; price := price r; seller := seller r;
     is_available := is_available r; error := error r |}.

(** [result.is_available or result.url]: the record stops the search. *)
Definition acceptable (r : ScrapedProduct) : bool :=
  truthy (is_available r)
  || match url r with Some (_ :: _) => true | _ => false end.

(** ** The field-mapping step of PageDataExtractor *)

Definition BASE_URL : pystr := py "https://www.worten.pt".
Definition SEARCH_URL : pystr := BASE_URL ++ py "/search".

(** The first loop of [_get_price_from_json]; [rest] is what follows it. *)
Fixpoint nested_price (product : pyval) (paths : list (pystr * pystr))
    (rest : outcome (option Decimal)) : outcome (option Decimal) :=
  match paths with
  | [] => rest
  | (field, subfield) :: paths' =>
    let? data := py_get product field (PDict []) in
    match data with
    | PDict d =>
      match lookup subfield d with
      | Some v =>
        match Decimal_str v with
        | Return x => Return (Some x)
        | Raise _ => nested_price product paths' rest
        end
      | None => nested_price product paths' rest
      end
    | _ => nested_price product paths' rest
    end
  end.

(** The second loop. *)
Fixpoint flat_price (product : pyval) (fields : list pystr)
    : outcome (option Decimal) :=
  match fields with
  | [] => Return None
  | field :: fields' =>
    let? value := py_get product field PNone in
    if truthy value && negb (match value with PDict _ => true | _ => false end)
    then match Decimal_str value with
         | Return x => Return (Some x)
         | Raise _ => flat_price product fields'
         end
    else flat_price product fields'
  end.

Definition _get_price_from_json (product : pyval) : outcome (option Decimal) :=
  nested_price product
    [(py "price", py "value"); (py "price", py "current");
     (py "prices", py "current")]
    (flat_price product [py "currentPrice"; py "salePrice"; py "price"]).

Definition _get_seller_from_json (product : pyval) : outcome pyval :=
  let? seller := py_get product (py "seller") (PDict []) in
  match seller with
  | PDict _ => py_get seller (py "name") (PStr (py "Worten"))
  | _ => Return (PStr (py "Worten"))
  end.

(** The body of the [try] of [_parse_product_json]. *)
Definition parse_product_json_body (product : pyval) : outcome ScrapedProduct :=
  let? n := py_get product (py "name") PNone in
  let? name := (if truthy n then Return n else py_get product (py "title") PNone) in
  let? s := py_get product (py "slug") PNone in
  let? slug := (if truthy s then Return s else py_get product (py "url") PNone) in
  let? url :=
    (if truthy slug then
       match slug with
       | PStr t => Return (Some (if startswith t (py "http") then t else BASE_URL ++ t))
       | _ => Raise (error_of AttributeError)
       end
     else Return None) in
  let? price := _get_price_from_json product in
  let? seller := _get_seller_from_json product in
  let? is_available :=
    (if match price with Some d => Decimal_bool d | None => false end
     then let? a := py_get product (py "available") (PBool true) in
          if truthy a then Return a
          else py_get product (py "inStock") (PBool true)
     else Return (PBool false)) in
  Return {| name := name; url := url; price := price; seller := seller;
            is_available := is_available; error := None |}.

Definition _parse_product_json (product : pyval) : ScrapedProduct :=
  match parse_product_json_body product with
  | Return r => r
  | Raise _ => error_record (py "Erro ao parsear produto do JSON")
  end.

Definition widget : pyval :=
  PDict [(py "name", PStr (py "Widget"));
         (py "slug", PStr (py "/p/widget-1"));
         (py "price", PDict [(py "current", PStr (py "49.90"))]);
         (py "seller", PDict [(py "name", PStr (py "ACME"))]);
         (py "available", PBool true)].

(** ** SearchTermPlanner: the first part of [search_product] *)

Definition skip_words : list pystr :=
  map py ["de"; "da"; "do"; "das"; "dos"; "e"; "ou"; "com"; "para"; "em";
          "um"; "uma"]%string.

Definition is_significant (w : pystr) : bool :=
  negb (str_mem (lower w) skip_words) && (2 <? List.length w)%nat.

Definition search_terms (query : pystr) : list pystr :=
  match query with
  | [] => []
  | _ =>
    let words := split query in
    let significant := filter is_significant words in
    (match significant with
     | [] => []
     | _ => [join (py " ") (firstn 4 significant)]
     end)
    ++ (if (List.length words <=? 5)%nat then [query] else [])
  end.

(** ** The scraper object and its environment *)

(** A browser session and an element of a rendered page are handles. *)
Definition driver := nat.
Definition element := nat.

Inductive By := CSS_SELECTOR | TAG_NAME.

(** Everything the scraper asks of the outside world, in the order it asks.
    The waits of [WebDriverWait] carry their timeout in seconds, [EvSleep] its
    length in milliseconds. *)
Inductive event :=
| EvNewUndetected (headless : bool) (version_main : option N)
| EvNewSelenium (headless : bool)
| EvGet (d : driver) (address : pystr)
| EvTitle (d : driver)
| EvCurrentUrl (d : driver)
| EvPageSource (d : driver)
| EvExecuteScript (d : driver) (script : pystr)
| EvFindElements (d : driver) (css : pystr)
| EvFindElement (d : driver) (css : pystr)
| EvWaitPresence (d : driver) (timeout : N) (css : pystr)
| EvWaitClickable (d : driver) (timeout : N) (css : pystr)
| EvClick (e : element)
| EvElemFind (e : element) (by_ : By) (value : pystr)
| EvElemText (e : element)
| EvElemAttribute (e : element) (attribute : pystr)
| EvSleep (ms : N)
| EvHttpGet (address : pystr) (timeout : N).

Definition is_http (ev : event) : bool :=
  match ev with EvHttpGet _ _ => true | _ => false end.

(** The fields of [WortenScraper], then the clock in milliseconds and the
    history of requests, latest first. *)
Record world := mkWorld {
  headless : bool;
  use_selenium : bool;
  _driver : option driver;
  _driver_failed : bool;
  _cloudflare_passed : bool;
  _chrome_version : option N;
  clock : N;
  events : list event
}.

Definition set_driver (d : option driver) (w : world) : world :=
  mkWorld (headless w) (use_selenium w) d (_driver_failed w)
          (_cloudflare_passed w) (_chrome_version w) (clock w) (events w).

Definition set_driver_failed (b : bool) (w : world) : world :=
  mkWorld (headless w) (use_selenium w) (_driver w) b
          (_cloudflare_passed w) (_chrome_version w) (clock w) (events w).

Definition set_cloudflare_passed (b : bool) (w : world) : world :=
  mkWorld (headless w) (use_selenium w) (_driver w) (_driver_failed w)
          b (_chrome_version w) (clock w) (events w).

(** One more request, which took [ms] milliseconds. *)
Definition record_event (ev : event) (ms : N) (w : world) : world :=
  mkWorld (headless w) (use_selenium w) (_driver w) (_driver_failed w)
          (_cloudflare_passed w) (_chrome_version w) (clock w + ms)
          (ev :: events w).

(** [WortenScraper(headless, use_selenium)] in an environment whose clock
    and history are given; [version] is what [get_chrome_version()] found. *)
Definition __init__ (headless use_selenium : bool) (version : option N)
    (now : N) (history : list event) : world :=
  mkWorld headless use_selenium None false false version now history.

(** ** Methods: state and exceptions *)

(** A method runs on the world and either returns or raises; what it
    changed before raising stays changed. *)
Definition M (A : Type) := world -> outcome A * world.

Definition ret {A} (a : A) : M A := fun w => (Return a, w).
Definition raise {A} (e : exn) : M A := fun w => (Raise e, w).
Definition lift {A} (o : outcome A) : M A := fun w => (o, w).

Definition bind {A B} (m : M A) (f : A -> M B) : M B :=
  fun w => match m w with
           | (Return a, w') => f a w'
           | (Raise e, w') => (Raise e, w')
           end.

(** [try: m except Exception as e: h e] *)
Definition try_except {A} (m : M A) (h : exn -> M A) : M A :=
  fun w => match m w with
           | (Return a, w') => (Return a, w')
           | (Raise e, w') => h e w'
           end.

Definition self_ : M world := fun w => (Return w, w).
Definition update (f : world -> world) : M unit := fun w => (Return tt, f w).

Notation "x <- m ;; k" := (bind m (fun x => k))
  (at level 61, m at next level, right associativity).
Notation "m ;; k" := (bind m (fun _ => k))
  (at level 61, right associativity).

(** [time.sleep] and [time.time()] *)
Definition sleep (ms : N) : M unit := update (record_event (EvSleep ms) ms).
Definition time_time : M N := fun w => (Return (clock w), w).

(** ** The environment *)

(** Which of the optional packages the module could import.
    [undetected_chromedriver] imports Selenium itself, so it is never there
    without it, and the Selenium names are imported together or not at all. *)
Inductive packages := NoSelenium | SeleniumOnly | SeleniumAndUndetected.

Record response := mkResponse { status_code : Z; text : pystr }.

(** What the scraper runs against.  The library functions are taken as
    they are; the browser and the network answer each request as a function
    of the whole history, whose head is the request itself, and [latency]
    is the time the request took. *)
Record Environment := mkEnvironment {
  installed : packages;
  WEBDRIVER_MANAGER_AVAILABLE : bool;
  quote_plus : pystr -> outcome pystr;
  json_loads : pystr -> outcome pyval;
  latency : list event -> N;
  answer_unit : list event -> outcome unit;
  answer_driver : list event -> outcome driver;
  answer_str : list event -> outcome pystr;
  answer_optional : list event -> outcome (option pystr);
  answer_element : list event -> outcome element;
  answer_count : list event -> outcome nat;
  answer_response : list event -> outcome response
}.

(** [BeautifulSoup]: parsing, [select_one], [tag.get(attribute)] and
    [get_text(strip=...)]. *)
Record Soup := mkSoup {
  tag : Type;
  BeautifulSoup : pystr -> outcome tag;
  select_one : tag -> pystr -> outcome (option tag);
  tag_get : tag -> pystr -> outcome (option pystr);
  get_text : tag -> bool -> outcome pystr
}.

(** A double quote, for the selectors and markers that contain one. *)
Definition dq : pystr := [34].
Definition quoted (s : pystr) : pystr := dq ++ s ++ dq.

Section Scraper.

Variable env : Environment.

Definition SELENIUM_AVAILABLE : bool :=
  match installed env with NoSelenium => false | _ => true end.

Definition UNDETECTED_AVAILABLE : bool :=
  match installed env with SeleniumAndUndetected => true | _ => false end.

(** Put a request to the environment. *)
Definition ask {A} (answer : list event -> outcome A) (ev : event) : M A :=
  fun w => let h := ev :: events w in
           (answer h, record_event ev (latency env h) w).

Definition driver_get (d : driver) (address : pystr) : M unit :=
  ask (answer_unit env) (EvGet d address).
Definition driver_title (d : driver) : M (option pystr) :=
  ask (answer_optional env) (EvTitle d).
Definition driver_current_url (d : driver) : M pystr :=
  ask (answer_str env) (EvCurrentUrl d).
Definition driver_page_source (d : driver) : M pystr :=
  ask (answer_str env) (EvPageSource d).
Definition driver_execute_script (d : driver) (script : pystr) : M unit :=
  ask (answer_unit env) (EvExecuteScript d script).
Definition driver_find_elements (d : driver) (css : pystr) : M nat :=
  ask (answer_count env) (EvFindElements d css).
Definition driver_find_element (d : driver) (css : pystr) : M element :=
  ask (answer_element env) (EvFindElement d css).
Definition wait_presence (d : driver) (timeout : N) (css : pystr) : M element :=
  ask (answer_element env) (EvWaitPresence d timeout css).
Definition wait_clickable (d : driver) (timeout : N) (css : pystr) : M element :=
  ask (answer_element env) (EvWaitClickable d timeout css).
Definition element_click (e : element) : M unit :=
  ask (answer_unit env) (EvClick e).
Definition element_find (e : element) (by_ : By) (value : pystr) : M element :=
  ask (answer_element env) (EvElemFind e by_ value).
Definition element_text (e : element) : M pystr :=
  ask (answer_str env) (EvElemText e).
Definition element_get_attribute (e : element) (a : pystr) : M (option pystr) :=
  ask (answer_optional env) (EvElemAttribute e a).
Definition session_get (address : pystr) (timeout : N) : M response :=
  ask (answer_response env) (EvHttpGet address timeout).

(** Reading one of the names [By], [WebDriverWait], [EC] or
    [WebDriverException], which the module binds only when Selenium was
    imported. *)
Definition selenium_name : M unit :=
  if SELENIUM_AVAILABLE then ret tt else raise (error_of NameError).

(** [driver.title.lower() if driver.title else ""]: the property is read
    twice. *)
Definition title_lower (d : driver) : M pystr :=
  t <- driver_title d ;;
  match t with
  | Some (_ :: _) =>
    t' <- driver_title d ;;
    match t' with
    | Some s => ret (lower s)
    | None => raise (error_of AttributeError)
    end
  | _ => ret []
  end.

(** The loop of [_pass_cloudflare], with [n] rounds to go. *)
Fixpoint cloudflare_rounds (n : nat) (d : driver) : M unit :=
  match n with
  | O => ret tt
  | S n' =>
    title <- title_lower d ;;
    if negb (str_in (py "momento") title) && negb (str_in (py "challenge") title)
    then update (set_cloudflare_passed true) ;; sleep 1000
    else sleep 1000 ;; cloudflare_rounds n' d
  end.

Definition _pass_cloudflare : M unit :=
  self <- self_ ;;
  match _driver self with
  | None => ret tt
  | Some d =>
    try_except (driver_get d BASE_URL ;; cloudflare_rounds 30 d)
               (fun _ => ret tt)
  end.

(** Opening a browser, by either package, then the visit to the home page;
    [None] when the attempt raised. *)
Definition open_browser (start : M driver) : M (option driver) :=
  try_except
    (d <- start ;;
     update (set_driver (Some d)) ;;
     self <- self_ ;;
     (if _cloudflare_passed self then ret tt else _pass_cloudflare) ;;
     self <- self_ ;;
     ret (_driver self))
    (fun _ => ret None).

Definition _get_driver : M (option driver) :=
  self <- self_ ;;
  match _driver self with
  | Some d => ret (Some d)
  | None =>
    if _driver_failed self then ret None
    else
      d1 <- (if UNDETECTED_AVAILABLE
             then open_browser
                    (ask (answer_driver env)
                       (EvNewUndetected (headless self)
                          (match _chrome_version self with
                           | Some 0 => None
                           | v => v
                           end)))
             else ret None) ;;
      match d1 with
      | Some d => ret (Some d)
      | None =>
        d2 <- (if SELENIUM_AVAILABLE
               then open_browser
                      (if WEBDRIVER_MANAGER_AVAILABLE env
                       then ask (answer_driver env) (EvNewSelenium (headless self))
                       else raise (error_of NameError))
               else ret None) ;;
        match d2 with
        | Some d => ret (Some d)
        | None => update (set_driver_failed true) ;; ret None
        end
      end
  end.

Inductive poll := Loaded | Again | Failed.

(** One round of [_wait_for_page_load]: the [try] block. *)
Definition poll_title (d : driver) : M poll :=
  try_except
    (title <- title_lower d ;;
     if str_in (py "momento") title || str_in (py "challenge") title
     then sleep 1000 ;; ret Again
     else ret Loaded)
    (fun _ => ret Failed).

(** The loop of [_wait_for_page_load] with its ten seconds.  [rounds]
    bounds the iterations: each one that does not return sleeps half a
    second at least, so twenty of them use up the ten seconds. *)
Fixpoint wait_rounds (rounds : nat) (d : driver) (start_time : N) : M bool :=
  now <- time_time ;;
  if now - start_time <? 10000 then
    match rounds with
    | O => ret false
    | S rounds' =>
      p <- poll_title d ;;
      match p with
      | Loaded => ret true
      | Again => wait_rounds rounds' d start_time
      | Failed => sleep 500 ;; wait_rounds rounds' d start_time
      end
    end
  else ret false.

Definition _wait_for_page_load (d : driver) : M bool :=
  start_time <- time_time ;;
  wait_rounds 20 d start_time.

(** The loop of [_accept_cookies] over its selectors. *)
Fixpoint accept_first (d : driver) (selectors : list pystr) : M unit :=
  match selectors with
  | [] => ret tt
  | selector :: rest =>
    clicked <- try_except
                 (btn <- wait_clickable d 2 selector ;;
                  element_click btn ;;
                  sleep 500 ;;
                  ret true)
                 (fun _ => ret false) ;;
    if clicked then ret tt else accept_first d rest
  end.

Definition _accept_cookies (d : driver) : M unit :=
  if negb SELENIUM_AVAILABLE then ret tt
  else
    try_except
      (accept_first d
         [py "#onetrust-accept-btn-handler";
          py "button[id*=" ++ quoted (py "accept") ++ py "]"])
      (fun _ => ret tt).

(** ** PageDataExtractor: [_extract_from_page_data] *)

(** The text after, and the text before, the first occurrence of [pat]. *)
Fixpoint after_first (pat s : pystr) {struct s} : option pystr :=
  if startswith s pat then Some (skipn (List.length pat) s)
  else match s with
       | [] => None
       | _ :: s' => after_first pat s'
       end.

Fixpoint before_first (pat s : pystr) {struct s} : option pystr :=
  if startswith s pat then Some []
  else match s with
       | [] => None
       | c :: s' => option_map (cons c) (before_first pat s')
       end.

(** Group 1 of the search for the script tag whose id is [__NEXT_DATA__]:
    the opening tag runs to the first [>] after the marker, the payload to
    the first closing tag after that, and a later start cannot match where
    the first one fails. *)
Definition next_data (html : pystr) : option pystr :=
  match after_first (py "<script id=" ++ quoted (py "__NEXT_DATA__")) html with
  | Some r =>
    match after_first (py ">") r with
    | Some payload => before_first (py "</script>") payload
    | None => None
    end
  | None => None
  end.

(** The loop over the keys of a listing; [rest] is the code after it. *)
Fixpoint listing (props : pyval) (keys : list pystr)
    (rest : outcome (option ScrapedProduct)) : outcome (option ScrapedProduct) :=
  match keys with
  | [] => rest
  | key :: keys' =>
    let? search_data := py_get props key (PDict []) in
    if negb (truthy search_data) then listing props keys' rest
    else
      let? a := py_get search_data (py "products") (PList []) in
      let? products :=
        (if truthy a then Return a
         else let? b := py_get search_data (py "items") (PList []) in
              if truthy b then Return b
              else py_get search_data (py "results") (PList [])) in
      if truthy products
      then let? first := py_first products in
           Return (Some (_parse_product_json first))
      else listing props keys' rest
  end.

Definition page_data_body (html : pystr) : outcome (option ScrapedProduct) :=
  match next_data html with
  | None => Return None
  | Some payload =>
    let? data := json_loads env payload in
    let? p := py_get data (py "props") (PDict []) in
    let? props := py_get p (py "pageProps") (PDict []) in
    listing props [py "searchData"; py "initialData"; py "data"]
      (let? a := py_get props (py "product") (PDict []) in
       let? product_data :=
         (if truthy a then Return a
          else py_get props (py "productData") (PDict [])) in
       if truthy product_data
       then Return (Some (_parse_product_json product_data))
       else Return None)
  end.

Definition _extract_from_page_data (html : pystr) : option ScrapedProduct :=
  match page_data_body html with
  | Return r => r
  | Raise _ => None
  end.

(** ** DomExtractor *)

Definition class_contains (word : pystr) : pystr :=
  py "[class*=" ++ quoted word ++ py "]".

Fixpoint price_dom_from (d : driver) (selectors : list pystr)
    : M (option Decimal) :=
  match selectors with
  | [] => ret None
  | selector :: rest =>
    r <- try_except
           (elem <- driver_find_element d selector ;;
            t <- element_text elem ;;
            ret (Some (_parse_price t)))
           (fun _ => ret None) ;;
    match r with
    | Some p => ret p
    | None => price_dom_from d rest
    end
  end.

Definition _extract_price_dom (d : driver) : M (option Decimal) :=
  if negb SELENIUM_AVAILABLE then ret None
  else price_dom_from d
         [class_contains (py "price"); py "span" ++ class_contains (py "Price")].

Fixpoint price_card_from (card : element) (selectors : list pystr)
    : M (option Decimal) :=
  match selectors with
  | [] => ret None
  | selector :: rest =>
    r <- try_except
           (elem <- element_find card CSS_SELECTOR selector ;;
            t <- element_text elem ;;
            let price_text := replace (replace t [10] []) (py " ") [] in
            ret (Some (_parse_price price_text)))
           (fun _ => ret None) ;;
    match r with
    | Some p => ret p
    | None => price_card_from card rest
    end
  end.

(** The import inside the method fails exactly when Selenium is missing. *)
Definition _extract_price_card (card : element) : M (option Decimal) :=
  if negb SELENIUM_AVAILABLE then ret None
  else price_card_from card
         [py ".product-card__price"; class_contains (py "price");
          class_contains (py "Price")].

(** [s or "Worten"] *)
Definition or_Worten (s : pystr) : pystr :=
  match s with [] => py "Worten" | _ => s end.

Definition _extract_seller_dom (d : driver) : M pystr :=
  if negb SELENIUM_AVAILABLE then ret (py "Worten")
  else
    try_except
      (elem <- driver_find_element d (class_contains (py "seller")) ;;
       t <- element_text elem ;;
       ret (or_Worten (strip t)))
      (fun _ => ret (py "Worten")).

Definition _extract_seller_card (card : element) : M pystr :=
  if negb SELENIUM_AVAILABLE then ret (py "Worten")
  else
    try_except
      (elem <- element_find card CSS_SELECTOR
                 (py ".product-card__seller, " ++ class_contains (py "seller")) ;;
       t <- element_text elem ;;
       let seller_text := strip t in
       let seller_text :=
         if startswith seller_text (py "Vendido por ")
         then replace seller_text (py "Vendido por ") []
         else seller_text in
       ret (or_Worten seller_text))
      (fun _ => ret (py "Worten")).

Definition is_some {A} (o : option A) : bool :=
  match o with Some _ => true | None => false end.

Definition _extract_product_page (d : driver) (url : pystr) : M ScrapedProduct :=
  source <- driver_page_source d ;;
  let from_dom : M ScrapedProduct :=
    name <- try_except
              (selenium_name ;;
               elem <- driver_find_element d (py "h1") ;;
               t <- element_text elem ;;
               ret (PStr (strip t)))
              (fun _ => ret PNone) ;;
    price <- _extract_price_dom d ;;
    seller <- _extract_seller_dom d ;;
    ret {| name := name; url := Some url; price := price;
           seller := PStr seller; is_available := PBool (is_some price);
           error := None |} in
  match _extract_from_page_data source with
  | Some result =>
    if truthy (name result) then ret (set_url result url) else from_dom
  | None => from_dom
  end.

(** The search for the card, one selector after the other. *)
Fixpoint find_card (d : driver) (selectors : list pystr) : M (option element) :=
  match selectors with
  | [] => ret None
  | selector :: rest =>
    r <- try_except
           (product <- wait_presence d 5 selector ;; ret (Some product))
           (fun _ => ret None) ;;
    match r with
    | Some product => ret (Some product)
    | None => find_card d rest
    end
  end.

(** The loop that reads the name: [name] is the value assigned so far, and
    an empty text is kept while the loop goes on. *)
Fixpoint card_name (product : element) (selectors : list pystr) (name : pyval)
    : M pyval :=
  match selectors with
  | [] => ret name
  | sel :: rest =>
    r <- try_except
           (elem <- element_find product CSS_SELECTOR sel ;;
            t <- element_text elem ;;
            ret (Some (strip t)))
           (fun _ => ret None) ;;
    match r with
    | Some [] => card_name product rest (PStr [])
    | Some n => ret (PStr n)
    | None => card_name product rest name
    end
  end.

Definition card_url (product : element) : M (option pystr) :=
  try_except
    (link <- element_find product CSS_SELECTOR
               (py "a[href*=" ++ quoted (py "/produtos/") ++ py "]") ;;
     element_get_attribute link (py "href"))
    (fun _ =>
       try_except
         (link <- element_find product TAG_NAME (py "a") ;;
          href <- element_get_attribute link (py "href") ;;
          match href with
          | Some ((_ :: _) as h) =>
            if str_in (py "/produtos/") h then ret (Some h) else ret None
          | _ => ret None
          end)
         (fun _ => ret None)).

Definition _extract_from_search_dom (d : driver) : M ScrapedProduct :=
  if negb SELENIUM_AVAILABLE then ret (error_record (py "Selenium não disponível"))
  else
    try_except
      (product <- find_card d
                    [py "article.product-card"; py ".product-card";
                     py "[data-testid=" ++ quoted (py "product-card") ++ py "]";
                     py "article[itemtype*=" ++ quoted (py "Product") ++ py "]"] ;;
       match product with
       | None => ret (error_record (py "Nenhum produto encontrado no DOM"))
       | Some product =>
         url <- card_url product ;;
         name <- card_name product
                   [py ".product-card__name-and-features"; py "h3"; py "h2";
                    class_contains (py "name")] PNone ;;
         price <- _extract_price_card product ;;
         seller <- _extract_seller_card product ;;
         ret {| name := name; url := url; price := price;
                seller := PStr seller; is_available := PBool (is_some price);
                error := None |}
       end)
      (fun e => ret (error_record
                       (py "Erro na extração DOM: " ++ upto 100 (exn_str e)))).

(** ** SearchOrchestrator *)

(** The fifteen seconds of waiting for product cards, [n] rounds to go. *)
Fixpoint wait_for_cards (n : nat) (d : driver) : M bool :=
  match n with
  | O => ret false
  | S n' =>
    sleep 1000 ;;
    found <- try_except
               (driver_execute_script d (py "window.scrollTo(0, 300)") ;;
                selenium_name ;;
                cards <- driver_find_elements d
                           (py ".product-card, article.product-card") ;;
                ret (0 <? cards)%nat)
               (fun _ => ret false) ;;
    if found then ret true else wait_for_cards n' d
  end.

(** The body of the [try] of [_search_with_selenium]. *)
Definition search_with_selenium_body (search_term : pystr) : M ScrapedProduct :=
  driver <- _get_driver ;;
  match driver with
  | None => ret (error_record (py "WebDriver não disponível"))
  | Some d =>
    q <- lift (quote_plus env search_term) ;;
    driver_get d (SEARCH_URL ++ py "?query=" ++ q) ;;
    loaded <- _wait_for_page_load d ;;
    if negb loaded then ret (error_record (py "Timeout no Cloudflare"))
    else
      _accept_cookies d ;;
      _ <- wait_for_cards 15 d ;;
      current <- driver_current_url d ;;
      if str_in (py "/p/") current
      then current <- driver_current_url d ;; _extract_product_page d current
      else
        source <- driver_page_source d ;;
        let page_source := lower source in
        if str_in (py "sem resultados") page_source
           || str_in (py "nenhum resultado") page_source
        then ret (error_record (py "Nenhum resultado encontrado"))
        else
          source <- driver_page_source d ;;
          match _extract_from_page_data source with
          | Some result =>
            if acceptable result then ret result
            else _extract_from_search_dom d
          | None => _extract_from_search_dom d
          end
  end.

(** The two handlers.  Their clauses name [WebDriverException], which is
    unbound when Selenium was not imported. *)
Definition selenium_handlers (e : exn) : M ScrapedProduct :=
  if SELENIUM_AVAILABLE then
    match exn_kind e with
    | WebDriverException =>
      update (set_driver_failed true) ;;
      update (set_driver None) ;;
      ret (error_record (py "Erro WebDriver: " ++ upto 100 (exn_str e)))
    | _ => ret (error_record (py "Erro Selenium: " ++ upto 100 (exn_str e)))
    end
  else raise (error_of NameError).

Definition _search_with_selenium (search_term : pystr) : M ScrapedProduct :=
  try_except (search_with_selenium_body search_term) selenium_handlers.

Definition not_found : ScrapedProduct :=
  error_record (py "Produto não encontrado na Worten").

(** The loop of [search_product] over the terms: the record that stopped
    it, or [None] when it ran to its end. *)
Fixpoint try_terms (terms : list pystr) : M (option ScrapedProduct) :=
  match terms with
  | [] => ret None
  | term :: rest =>
    result <- _search_with_selenium term ;;
    if acceptable result then ret (Some result)
    else sleep 500 ;; try_terms rest
  end.

Definition search_product (query : pystr) (ean : option pystr)
    : M ScrapedProduct :=
  match search_terms query with
  | [] => ret (error_record (py "Nenhum termo de busca informado"))
  | terms =>
    self <- self_ ;;
    found <- (if use_selenium self && negb (_driver_failed self)
              then try_terms terms
              else ret None) ;;
    match found with
    | Some result => ret result
    | None => ret not_found
    end
  end.

(** ** HtmlExtractor and the static fetch *)

Section Html.

Variable bs : Soup.

Fixpoint select_first (soup : tag bs) (selectors : list pystr)
    : outcome (option (tag bs)) :=
  match selectors with
  | [] => Return None
  | selector :: rest =>
    let? product := select_one bs soup selector in
    match product with
    | Some t => Return (Some t)
    | None => select_first soup rest
    end
  end.

Fixpoint html_name (product : tag bs) (selectors : list pystr) (name : pyval)
    : outcome pyval :=
  match selectors with
  | [] => Return name
  | selector :: rest =>
    let? elem := select_one bs product selector in
    match elem with
    | Some e =>
      let? t := get_text bs e true in
      match t with
      | [] => html_name product rest (PStr [])
      | _ => Return (PStr t)
      end
    | None => html_name product rest name
    end
  end.

Fixpoint price_html_from (soup_elem : tag bs) (selectors : list pystr)
    : outcome (option Decimal) :=
  match selectors with
  | [] => Return None
  | selector :: rest =>
    let? elem := select_one bs soup_elem selector in
    match elem with
    | Some e =>
      let? t := get_text bs e false in
      match _parse_price t with
      | Some price =>
        if Decimal_bool price then Return (Some price)
        else price_html_from soup_elem rest
      | None => price_html_from soup_elem rest
      end
    | None => price_html_from soup_elem rest
    end
  end.

Definition _extract_price_html (soup_elem : tag bs) : outcome (option Decimal) :=
  price_html_from soup_elem [class_contains (py "price"); py "span"].

Definition _extract_seller_html (soup_elem : tag bs) : outcome pystr :=
  let? elem := select_one bs soup_elem (class_contains (py "seller")) in
  match elem with
  | Some e => let? t := get_text bs e true in Return (or_Worten t)
  | None => Return (py "Worten")
  end.

(** The body of the [try] of [_extract_from_search_html]. *)
Definition search_html_body (html : pystr) : outcome ScrapedProduct :=
  let? soup := BeautifulSoup bs html in
  let? product :=
    select_first soup
      [py "[data-testid=" ++ quoted (py "product-card") ++ py "]";
       py ".product-card"; py "article"] in
  match product with
  | None => Return (error_record (py "Nenhum produto no HTML"))
  | Some product =>
    let? l := select_one bs product (py "a[href*=" ++ quoted (py "/p/") ++ py "]") in
    let? link := (match l with
                  | Some t => Return (Some t)
                  | None => select_one bs product (py "a")
                  end) in
    let? url :=
      (match link with
       | Some t =>
         let? h := tag_get bs t (py "href") in
         match h with
         | Some ((_ :: _) as href) =>
           Return (Some (if startswith href (py "http") then href
                         else BASE_URL ++ href))
         | _ => Return None
         end
       | None => Return None
       end) in
    let? name := html_name product [py "h3"; py "h2"; class_contains (py "name")]
                   PNone in
    let? price := _extract_price_html product in
    let? seller := _extract_seller_html product in
    Return {| name := name; url := url; price := price;
              seller := PStr seller; is_available := PBool (is_some price);
              error := None |}
  end.

Definition _extract_from_search_html (html : pystr) : ScrapedProduct :=
  match search_html_body html with
  | Return r => r
  | Raise e =>
    error_record (py "Erro na extração HTML: " ++ upto 100 (exn_str e))
  end.

(** The two clauses of [_search_with_requests]: the timeout first, then any
    other error of [requests]; everything else propagates. *)
Definition requests_handlers (e : exn) : M ScrapedProduct :=
  match exn_kind e with
  | RequestsTimeout => ret (error_record (py "Timeout na requisição"))
  | RequestException =>
    ret (error_record (py "Erro na requisição: " ++ upto 100 (exn_str e)))
  | _ => raise e
  end.

Definition _search_with_requests (search_term : pystr) : M ScrapedProduct :=
  try_except
    (q <- lift (quote_plus env search_term) ;;
     response <- session_get (SEARCH_URL ++ py "?query=" ++ q) 15 ;;
     if (status_code response =? 403)%Z
     then ret (error_record (py "Bloqueado pelo Cloudflare (403)"))
     else if negb (status_code response =? 200)%Z
     then ret (error_record (py "HTTP " ++ str_int (status_code response)))
     else if str_in (py "challenge") (lower (text response))
             || str_in (py "momento") (upto 500 (lower (text response)))
     then ret (error_record (py "Desafio Cloudflare detectado"))
     else
       match _extract_from_page_data (text response) with
       | Some result =>
         if acceptable result then ret result
         else ret (_extract_from_search_html (text response))
       | None => ret (_extract_from_search_html (text response))
       end)
    requests_handlers.

End Html.

End Scraper.

(** ** Environments to run the model in *)

Definition failing {A} (k : exn_class) (msg : pystr) : list event -> outcome A :=
  fun _ => Raise (mk_exn k msg).

(** A machine without Selenium. *)
Definition bare_env : Environment :=
  {| installed := NoSelenium;
     WEBDRIVER_MANAGER_AVAILABLE := false;
     quote_plus := fun s => Return s;
     json_loads := fun _ => Raise (error_of OtherException);
     latency := fun _ => 0;
     answer_unit := failing OtherException [];
     answer_driver := failing OtherException [];
     answer_str := failing OtherException [];
     answer_optional := failing OtherException [];
     answer_element := failing OtherException [];
     answer_count := failing OtherException [];
     answer_response := failing RequestException (py "no route to host") |}.

(** A browser that opens and then loses its connection: every request
    after the start raises a [WebDriverException]. *)
Definition offline_env : Environment :=
  {| installed := SeleniumAndUndetected;
     WEBDRIVER_MANAGER_AVAILABLE := true;
     quote_plus := fun s => Return s;
     json_loads := fun _ => Raise (error_of OtherException);
     latency := fun _ => 20;
     answer_unit := failing WebDriverException (py "net::ERR_INTERNET_DISCONNECTED");
     answer_driver := fun _ => Return 1%nat;
     answer_str := failing WebDriverException (py "net::ERR_INTERNET_DISCONNECTED");
     answer_optional := failing WebDriverException (py "net::ERR_INTERNET_DISCONNECTED");
     answer_element := failing WebDriverException (py "no such element");
     answer_count := failing WebDriverException (py "net::ERR_INTERNET_DISCONNECTED");
     answer_response := failing RequestsTimeout (py "timed out") |}.

Definition widget_page : pystr :=
  py "<html><script id=" ++ quoted (py "__NEXT_DATA__")
  ++ py " type=" ++ quoted (py "application/json")
  ++ py ">{...}</script></html>".

(** A shop whose every page embeds the payload of the widget, and shows no
    cookie banner and no product card. *)
Definition shop_env : Environment :=
  {| installed := SeleniumAndUndetected;
     WEBDRIVER_MANAGER_AVAILABLE := true;
     quote_plus := fun s => Return s;
     json_loads := fun _ =>
       Return (PDict [(py "props",
                       PDict [(py "pageProps", PDict [(py "product", widget)])])]);
     latency := fun _ => 100;
     answer_unit := fun _ => Return tt;
     answer_driver := fun _ => Return 1%nat;
     answer_str := fun h =>
       match h with
       | EvPageSource _ :: _ => Return widget_page
       | _ => Return (SEARCH_URL ++ py "?query=widget")
       end;
     answer_optional := fun _ => Return (Some (py "Worten Online"));
     answer_element := failing WebDriverException (py "no such element");
     answer_count := fun _ => Return 0%nat;
     answer_response := fun _ => Return (mkResponse 403 []) |}.

(** A fresh scraper at time zero. *)
Definition fresh : world := __init__ false true None 0 [].

(** ** Notions used by the properties *)

(** The state a scraper can be in: without Selenium no browser was ever
    opened. *)
Definition wf (env : Environment) (w : world) : Prop :=
  SELENIUM_AVAILABLE env = false -> _driver w = None.

(** The attempts for [terms], in order and each followed by its pause,
    all ended with a record that does not stop the search. *)
Inductive rejected (env : Environment) : list pystr -> world -> world -> Prop :=
| rejected_nil w : rejected env [] w w
| rejected_cons term rest w r w1 w2 :
    _search_with_selenium env term w = (Return r, w1) ->
    acceptable r = false ->
    rejected env rest (record_event (EvSleep 500) 500 w1) w2 ->
    rejected env (term :: rest) w w2.

(** The requests sent over the HTTP session so far. *)
Definition http_requests (w : world) : list event := filter is_http (events w).

(** The method returns only values that satisfy [P]. *)
Definition returns {A} (P : A -> Prop) (m : M A) : Prop :=
  forall w a w', m w = (Return a, w') -> P a.

(** The method leaves the HTTP session alone. *)
Definition quiet {A} (m : M A) : Prop :=
  forall w, http_requests (snd (m w)) = http_requests w.

(** What a record built by the scraper looks like: an error record, or a
    record without error whose seller was chosen by one of the seller
    helpers. *)
Definition built (r : ScrapedProduct) : Prop :=
  (exists msg, r = error_record msg)
  \/ (error r = None
      /\ ((exists s, seller r = PStr s /\ s <> [])
          \/ (exists product, _get_seller_from_json product = Return (seller r)))).

(** Two payloads whose price is not positive. *)
Definition free_item : pyval :=
  PDict [(py "name", PStr (py "Sample"));
         (py "price", PDict [(py "value", PInt 0)])].

Definition refund_item : pyval :=
  PDict [(py "name", PStr (py "Voucher"));
         (py "price", PDict [(py "value", PInt (-5))])].

(** A token the planner drops: a stop word, or of length at most two. *)
Definition dropped (w : pystr) : Prop :=
  str_mem (lower w) skip_words = true \/ (List.length w <= 2)%nat.

(** A name of six stop words. *)
Definition six_stop_words : pystr := py "de da do das dos e".

(** An error and availability exclude each other. *)
Definition consistent (r : ScrapedProduct) : Prop :=
  error r <> None -> is_available r = PBool false.


(** One call stops at the first acceptable record: with the browser in use, the call returns
    the record of the first term whose attempt is acceptable, in the state
    that attempt left, after the attempts for the terms before it were all
    rejected; when every term is rejected, or the browser is not in use, it
    returns the not-found record. *)
Definition stops_at_first_acceptable env query ean w : Prop :=
  if use_selenium w && negb (_driver_failed w) then
    (exists before term after w1 r w2,
        search_terms query = before ++ term :: after
        /\ rejected env before w w1
        /\ _search_with_selenium env term w1 = (Return r, w2)
        /\ acceptable r = true
        /\ search_product env query ean w = (Return r, w2))
    \/ (exists w2,
           rejected env (search_terms query) w w2
           /\ search_product env query ean w = (Return not_found, w2))
  else search_product env query ean w = (Return not_found, w).

(** ** Notions used by the further properties *)

(** What the price parser deletes before it reads a number: the euro sign,
    the capitals E, U and R, and whitespace. *)
Definition currency_or_space (c : N) : bool :=
  (c =? 8364) || (c =? 69) || (c =? 85) || (c =? 82) || is_space c.

(** The value of [product.get("slug") or product.get("url")] for an
    object. *)
Definition slug_of (item : list (pystr * pyval)) : pyval :=
  py_or (match lookup (py "slug") item with Some v => v | None => PNone end)
        (match lookup (py "url") item with Some v => v | None => PNone end).

Definition is_str (v : pyval) : bool :=
  match v with PStr _ => true | _ => false end.

Definition is_dict (v : pyval) : bool :=
  match v with PDict _ => true | _ => false end.

(** The marker that opens the embedded payload. *)
Definition next_data_marker : pystr :=
  py "<script id=" ++ quoted (py "__NEXT_DATA__").

(** A word as [split()] yields them: not empty and free of whitespace. *)
Definition is_word (w : pystr) : Prop :=
  w <> [] /\ forall c, In c w -> is_space c = false.

(** The method leaves a component [f] of the world as it was. *)
Definition keeps {A X} (f : world -> X) (m : M A) : Prop :=
  forall w, f (snd (m w)) = f w.

(** The driver and the failure flag, the two fields that decide whether the
    browser is used. *)
Definition browser_state (w : world) : option driver * bool :=
  (_driver w, _driver_failed w).

(** A BeautifulSoup that parses nothing. *)
Definition no_soup : Soup :=
  {| tag := unit;
     BeautifulSoup := fun _ => Raise (error_of OtherException);
     select_one := fun _ _ => Return None;
     tag_get := fun _ _ => Return None;
     get_text := fun _ _ => Return [] |}.

(** Availability goes with a price, and a price is positive. *)
Definition priced (r : ScrapedProduct) : Prop :=
  is_available r = PBool (is_some (price r))
  /\ forall d, price r = Some d -> positive d.

(** The error text, if any, has at most 122 characters. *)
Definition short_error (r : ScrapedProduct) : Prop :=
  forall msg, error r = Some msg -> (List.length msg <= 122)%nat.

(** ** The batch endpoint: the loop of [ProductViewSet.scrape] *)

(** A row of [products.models.Product], with the fields the loop reads and
    writes; [last_scraped] is a reading of the clock. *)
Module models.
Record Product := mkProduct {
  original_id : pystr;
  ean : pystr;
  original_name : pystr;
  worten_name : pyval;
  worten_url : option pystr;
  lowest_price : option Decimal;
  seller_name : pyval;
  is_available : pyval;
  last_scraped : option N;
  scrape_error : option pystr
}.
End models.

(** The scraper with its environment, and the rows handed to [save()] so
    far, latest first. *)
Record site := mkSite { scraper : world; saves : list models.Product }.

(** The four counters of the response. *)
Module response.
Record tally := mkTally {
  scraped : nat;
  found : nat;
  not_found : nat;
  errors : nat
}.
End response.

Definition tally := response.tally.

(** [scraped += 1] and the like. *)
Definition scraped_plus_1 (c : tally) : tally :=
  response.mkTally (S (response.scraped c)) (response.found c)
    (response.not_found c) (response.errors c).
Definition found_plus_1 (c : tally) : tally :=
  response.mkTally (response.scraped c) (S (response.found c))
    (response.not_found c) (response.errors c).
Definition not_found_plus_1 (c : tally) : tally :=
  response.mkTally (response.scraped c) (response.found c)
    (S (response.not_found c)) (response.errors c).
Definition errors_plus_1 (c : tally) : tally :=
  response.mkTally (response.scraped c) (response.found c)
    (response.not_found c) (S (response.errors c)).

(** The assignments of the result to the row. *)
Definition store_result (product : models.Product) (result : ScrapedProduct)
    (now : N) : models.Product :=
  {| models.original_id := models.original_id product;
     models.ean := models.ean product;
     models.original_name := models.original_name product;
     models.worten_name := name result;
     models.worten_url := url result;
     models.lowest_price := price result;
     models.seller_name := seller result;
     models.is_available := is_available result;
     models.last_scraped := Some now;
     models.scrape_error := error result |}.

(** The assignments of the handler. *)
Definition store_failure (product : models.Product) (e : exn) (now : N)
    : models.Product :=
  {| models.original_id := models.original_id product;
     models.ean := models.ean product;
     models.original_name := models.original_name product;
     models.worten_name := models.worten_name product;
     models.worten_url := models.worten_url product;
     models.lowest_price := models.lowest_price product;
     models.seller_name := models.seller_name product;
     models.is_available := models.is_available product;
     models.last_scraped := Some now;
     models.scrape_error := Some (exn_str e) |}.

(** The counting after a row was saved. *)
Definition count_result (c : tally) (result : ScrapedProduct) : tally :=
  let c := scraped_plus_1 c in
  if truthy (is_available result) then found_plus_1 c
  else match error result with
       | Some (_ :: _) => errors_plus_1 c
       | _ => not_found_plus_1 c
       end.

Section Batch.

Variable env : Environment.

(** The database answers each [save()] as a function of all the rows it was
    handed, the head being the row at hand. *)
Variable db_save : list models.Product -> outcome unit.

Definition save (product : models.Product) (s : site) : outcome unit * site :=
  let h := product :: saves s in (db_save h, mkSite (scraper s) h).

(** The [except] clause of the loop: the row as it is in memory gets the
    text of the exception and is saved; a second failure is not caught. *)
Definition scrape_failed (c : tally) (product : models.Product) (e : exn)
    (s : site) : outcome tally * site :=
  let product := store_failure product e (clock (scraper s)) in
  match save product s with
  | (Return _, s') => (Return (errors_plus_1 c), s')
  | (Raise e', s') => (Raise e', s')
  end.

(** One round of the loop. *)
Definition scrape_one (c : tally) (product : models.Product) (s : site)
    : outcome tally * site :=
  match search_product env (models.original_name product)
          (Some (models.ean product)) (scraper s) with
  | (Raise e, w) => scrape_failed c product e (mkSite w (saves s))
  | (Return result, w) =>
    let product := store_result product result (clock w) in
    match save product (mkSite w (saves s)) with
    | (Raise e, s') => scrape_failed c product e s'
    | (Return _, s') => (Return (count_result c result), s')
    end
  end.

Fixpoint scrape_loop (c : tally) (products : list models.Product) (s : site)
    : outcome tally * site :=
  match products with
  | [] => (Return c, s)
  | product :: rest =>
    match scrape_one c product s with
    | (Return c', s') => scrape_loop c' rest s'
    | (Raise e, s') => (Raise e, s')
    end
  end.

(** The endpoint from the new scraper to the counters of its response, for
    the rows that the query selected. *)
Definition scrape (version : option N) (products : list models.Product)
    (s : site) : outcome tally * site :=
  scrape_loop (response.mkTally 0 0 0 0) products
    (mkSite (__init__ false true version (clock (scraper s)) (events (scraper s)))
            (saves s)).

End Batch.

(** A database that accepts every row, and one that is down. *)
Definition db_up : list models.Product -> outcome unit := fun _ => Return tt.
Definition db_down : list models.Product -> outcome unit :=
  fun _ => Raise (mk_exn OtherException (py "database is locked")).

Definition two_rows : list models.Product :=
  [models.mkProduct (py "1") (py "5601234567890") (py "iPhone 15 Pro")
     PNone None None PNone (PBool false) None None;
   models.mkProduct (py "2") [] (py "de da do das dos e")
     PNone None None PNone (PBool false) None None].

Definition empty_site : site := mkSite fresh [].

(** The products counted in one of the three classes. *)
Definition classified (c : tally) : nat :=
  (response.found c + response.not_found c + response.errors c)%nat.

(** A row is never stored both available and with an error. *)
Definition row_consistent (row : models.Product) : Prop :=
  models.scrape_error row <> None -> models.is_available row = PBool false.

(** The record "no search term", returned for a name that plans no term. *)
Definition no_terms : ScrapedProduct :=
  error_record (py "Nenhum termo de busca informado").

(** * Properties *)

(** ** The model on concrete inputs *)

Example py_euro : py "12,50€" = [49; 50; 44; 53; 48; 8364].
Proof. reflexivity. Qed.

Example split_example :
  split (py "  Maquina de   cafe ") = [py "Maquina"; py "de"; py "cafe"].
Proof. reflexivity. Qed.

Example replace_example :
  replace (py "Vendido por X Vendido por Y") (py "Vendido por ") [] = py "X Y".
Proof. reflexivity. Qed.

Example parse_price_euro : _parse_price (py "12,50€") = Some (Finite false 1250 (-2)).
Proof. reflexivity. Qed.

Example parse_price_thousands :
  _parse_price (py "1.234,56") = Some (Finite false 123456 (-2)).
Proof. reflexivity. Qed.

Example parse_price_zero : _parse_price (py "0,00 €") = None.
Proof. reflexivity. Qed.

Example widget_price : _get_price_from_json widget = Return (Some (Finite false 4990 (-2))).
Proof. reflexivity. Qed.

Example str_int_neg : str_int (-5) = py "-5".
Proof. reflexivity. Qed.

Example search_terms_example :
  search_terms (py "Máquina de Café Delta Q Mini Qool Vermelha")
  = [py "Máquina Café Delta Mini"].
Proof. reflexivity. Qed.

Example search_terms_short :
  search_terms (py "iPhone 15 Pro") = [py "iPhone Pro"; py "iPhone 15 Pro"].
Proof. reflexivity. Qed.

Example search_without_selenium :
  fst (search_product bare_env (py "iPhone 15 Pro") None fresh) = Return not_found.
Proof. reflexivity. Qed.

Example search_offline :
  let '(r, w) := search_product offline_env (py "iPhone 15 Pro") None fresh in
  r = Return not_found /\ _driver_failed w = true /\ _driver w = None
  /\ List.length (events w) = 5%nat.
Proof. vm_compute. auto. Qed.

Example search_shop :
  fst (search_product shop_env (py "iPhone 15 Pro") None fresh)
  = Return (_parse_product_json widget).
Proof. vm_compute. reflexivity. Qed.

(** ** PriceParser *)

(** C3, as the code has it.  [_parse_price] reads 12,50€ as 12.50,
    1.234,56 as 1234.56 and 19.99 as 19.99, gives [None] for the text free
    and for the empty text, and reads -5 as 5: the sign is not part of the
    numeric substring the pattern extracts. *)
Theorem parse_price_examples :
  _parse_price (py "12,50€") = Some (Finite false 1250 (-2))
  /\ _parse_price (py "1.234,56") = Some (Finite false 123456 (-2))
  /\ _parse_price (py "19.99") = Some (Finite false 1999 (-2))
  /\ _parse_price (py "free") = None
  /\ _parse_price (py "") = None
  /\ _parse_price (py "-5") = Some (Finite false 5 0).
Proof. repeat split; vm_compute; reflexivity. Qed.

(** C3 as stated fails on -5, which is not mapped to [None]. *)
Lemma parse_price_minus_five_is_not_None : _parse_price (py "-5") <> None.
Proof. vm_compute. discriminate. Qed.

(** Whatever [_parse_price] returns is positive. *)
Lemma parse_price_positive text d : _parse_price text = Some d -> positive d.
Proof.
  unfold _parse_price. destruct text as [|c text]; [discriminate|].
  destruct (search_number _) as [g|]; [|discriminate].
  destruct (Decimal_of_str g) as [v|e]; simpl; [|discriminate].
  destruct v as [neg c0 ex|neg|neg sg pl]; simpl; try discriminate.
  - destruct neg; simpl; [discriminate|].
    destruct (N.ltb_spec 0 c0); [|discriminate].
    intros H'; inversion H'; subst. simpl. auto.
  - destruct neg; simpl; [discriminate|].
    intros H'; inversion H'; subst. reflexivity.
Qed.

(** ** The field mapping *)

(** C6.  The payload of the widget maps to the record with its name, the
    address under the base URL, the price 49.90, the seller ACME, available
    and without error. *)
Theorem parse_product_json_widget :
  _parse_product_json widget
  = {| name := PStr (py "Widget");
       url := Some (BASE_URL ++ py "/p/widget-1");
       price := Some (Finite false 4990 (-2));
       seller := PStr (py "ACME");
       is_available := PBool true;
       error := None |}.
Proof. vm_compute. reflexivity. Qed.

(** C4, where the code departs from it.  The JSON path stores the decimal
    it read without comparing it to zero: a price of 0 is kept as a present
    price, and a price of -5 is kept and even reported as available. *)
Theorem json_price_is_not_checked :
  price (_parse_product_json free_item) = Some (Finite false 0 0)
  /\ price (_parse_product_json refund_item) = Some (Finite true 5 0)
  /\ is_available (_parse_product_json refund_item) = PBool true
  /\ ~ positive (Finite false 0 0) /\ ~ positive (Finite true 5 0).
Proof.
  repeat split; try (vm_compute; reflexivity);
    simpl; intros [H1 H2]; try discriminate; inversion H2.
Qed.

(** ** SearchTermPlanner *)

Lemma is_significant_false w : is_significant w = false <-> dropped w.
Proof.
  unfold is_significant, dropped. rewrite andb_false_iff, negb_false_iff.
  rewrite Nat.ltb_ge. reflexivity.
Qed.

Lemma filter_nil {A} (f : A -> bool) l :
  filter f l = [] <-> Forall (fun x => f x = false) l.
Proof.
  induction l as [|x l IH]; simpl.
  - split; auto.
  - destruct (f x) eqn:E; split; intros H.
    + discriminate.
    + inversion H; congruence.
    + constructor; [assumption | apply IH; assumption].
    + inversion H; subst. apply IH; assumption.
Qed.

Lemma no_significant_word query :
  filter is_significant (split query) = [] <-> Forall dropped (split query).
Proof.
  rewrite filter_nil. split; intros H; eapply Forall_impl; try exact H;
    intros w; apply is_significant_false.
Qed.

(** C7, as the code has it.  When every token of a name is a stop word or
    has length at most two, a non-empty name of at most five tokens is planned
    as itself alone; and the plan is empty exactly for the empty name and for
    a name of more than five tokens that are all dropped. *)
Theorem planner_falls_back_to_short_names query :
  (Forall dropped (split query) -> query <> [] ->
   (List.length (split query) <= 5)%nat -> search_terms query = [query])
  /\ (search_terms query = [] <->
      query = [] \/ (Forall dropped (split query)
                     /\ (5 < List.length (split query))%nat)).
Proof.
  split.
  - intros Hd Hq Hl. apply no_significant_word in Hd.
    unfold search_terms. destruct query as [|c q]; [congruence|].
    rewrite Hd. apply Nat.leb_le in Hl. rewrite Hl. reflexivity.
  - unfold search_terms. destruct query as [|c q].
    + split; auto.
    + rewrite <- no_significant_word.
      destruct (filter is_significant (split (c :: q))) as [|s l] eqn:E;
        destruct (Nat.leb_spec (List.length (split (c :: q))) 5) as [Hl|Hl];
        simpl; split; intros H; try discriminate; auto.
      * destruct H as [H|[_ H]]; [discriminate | lia].
      * destruct H as [H|[H _]]; discriminate.
      * destruct H as [H|[H _]]; discriminate.
Qed.

Lemma planner_falls_back_witness :
  Forall dropped (split (py "TV de LG")) /\ search_terms (py "TV de LG") = [py "TV de LG"].
Proof.
  assert (H : Forall dropped (split (py "TV de LG"))).
  { apply no_significant_word. vm_compute. reflexivity. }
  split; [exact H|].
  apply (proj1 (planner_falls_back_to_short_names (py "TV de LG")) H).
  - vm_compute. discriminate.
  - vm_compute. lia.
Defined.

(** C7 as stated fails on a name of six stop words: every token is
    dropped, the name is neither empty nor blank, and the plan is empty
    rather than the name alone. *)
Lemma planner_six_stop_words :
  Forall dropped (split six_stop_words)
  /\ split six_stop_words <> []
  /\ search_terms six_stop_words = []
  /\ search_terms six_stop_words <> [six_stop_words].
Proof.
  split; [apply no_significant_word; vm_compute; reflexivity|].
  repeat split; vm_compute; discriminate || reflexivity.
Qed.

(** ** Reasoning about methods *)

Lemma obind_Return {A B} (x : outcome A) (f : A -> outcome B) b :
  obind x f = Return b -> exists a, x = Return a /\ f a = Return b.
Proof. destruct x; simpl; intros H; [eauto | discriminate]. Qed.

Section Laws.

Context {A B : Type}.

Lemma returns_ret (P : A -> Prop) a : P a -> returns P (ret a).
Proof. intros H w a' w' E. inversion E; subst; assumption. Qed.

Lemma returns_raise (P : A -> Prop) e : returns P (raise e).
Proof. intros w a w' E. discriminate. Qed.

Lemma returns_bind (Q : A -> Prop) (P : B -> Prop) (m : M A) (f : A -> M B) :
  returns Q m -> (forall a, Q a -> returns P (f a)) -> returns P (bind m f).
Proof.
  intros Hm Hf w b w' E. unfold bind in E.
  destruct (m w) as [[a|e] w1] eqn:Em; [|discriminate].
  eapply Hf; eauto.
Qed.

Lemma returns_then (P : B -> Prop) (m : M A) (f : A -> M B) :
  (forall a, returns P (f a)) -> returns P (bind m f).
Proof.
  intros Hf. apply returns_bind with (Q := fun _ => True); [intros ? ? ? ?|]; auto.
Qed.

Lemma returns_try (P : A -> Prop) (m : M A) h :
  returns P m -> (forall e, returns P (h e)) -> returns P (try_except m h).
Proof.
  intros Hm Hh w a w' E. unfold try_except in E.
  destruct (m w) as [[a'|e] w1] eqn:Em.
  - inversion E; subst. eapply Hm; eauto.
  - eapply Hh; eauto.
Qed.

Lemma quiet_ret (a : A) : quiet (ret a).
Proof. intros w. reflexivity. Qed.

Lemma quiet_raise e : quiet (@raise A e).
Proof. intros w. reflexivity. Qed.

Lemma quiet_lift (o : outcome A) : quiet (lift o).
Proof. intros w. reflexivity. Qed.

Lemma quiet_bind (m : M A) (f : A -> M B) :
  quiet m -> (forall a, quiet (f a)) -> quiet (bind m f).
Proof.
  intros Hm Hf w. unfold bind. specialize (Hm w).
  destruct (m w) as [[a|e] w1]; simpl in *; [|assumption].
  rewrite Hf. assumption.
Qed.

Lemma quiet_try (m : M A) h :
  quiet m -> (forall e, quiet (h e)) -> quiet (try_except m h).
Proof.
  intros Hm Hh w. unfold try_except. specialize (Hm w).
  destruct (m w) as [[a|e] w1]; simpl in *; [assumption|].
  rewrite Hh. assumption.
Qed.

Lemma quiet_ask env (answer : list event -> outcome A) ev :
  is_http ev = false -> quiet (ask env answer ev).
Proof. intros H w. unfold ask, http_requests. simpl. rewrite H. reflexivity. Qed.

End Laws.

Lemma quiet_self : quiet self_.
Proof. intros w. reflexivity. Qed.

Lemma quiet_time : quiet time_time.
Proof. intros w. reflexivity. Qed.

Lemma quiet_sleep ms : quiet (sleep ms).
Proof. intros w. reflexivity. Qed.

Lemma quiet_set_driver d : quiet (update (set_driver d)).
Proof. intros w. reflexivity. Qed.

Lemma quiet_set_driver_failed b : quiet (update (set_driver_failed b)).
Proof. intros w. reflexivity. Qed.

Lemma quiet_set_cloudflare_passed b : quiet (update (set_cloudflare_passed b)).
Proof. intros w. reflexivity. Qed.

Create HintDb quiet.
#[export] Hint Resolve quiet_self quiet_time quiet_sleep quiet_set_driver
  quiet_set_driver_failed quiet_set_cloudflare_passed : quiet.

(** One step through a method that is built from quiet parts. *)
Ltac quiet_step :=
  match goal with
  | |- forall _, _ => intros
  | |- quiet (ret _) => apply quiet_ret
  | |- quiet (raise _) => apply quiet_raise
  | |- quiet (lift _) => apply quiet_lift
  | |- quiet (bind _ _) => apply quiet_bind
  | |- quiet (try_except _ _) => apply quiet_try
  | |- quiet (ask _ _ _) => apply quiet_ask; reflexivity
  | |- quiet (match ?x with _ => _ end) => destruct x
  | |- quiet _ => solve [auto with quiet]
  end.

Ltac quiet_auto := repeat quiet_step.

Section Quiet.

Variable env : Environment.

Lemma quiet_selenium_name : quiet (selenium_name env).
Proof. unfold selenium_name. quiet_auto. Qed.

Lemma quiet_title_lower d : quiet (title_lower env d).
Proof. unfold title_lower, driver_title. quiet_auto. Qed.
Hint Resolve quiet_selenium_name quiet_title_lower : quiet.

Lemma quiet_cloudflare_rounds n d : quiet (cloudflare_rounds env n d).
Proof. induction n; simpl; quiet_auto. Qed.
Hint Resolve quiet_cloudflare_rounds : quiet.

Lemma quiet_pass_cloudflare : quiet (_pass_cloudflare env).
Proof. unfold _pass_cloudflare, driver_get. quiet_auto. Qed.
Hint Resolve quiet_pass_cloudflare : quiet.

Lemma quiet_open_browser start : quiet start -> quiet (open_browser env start).
Proof. intros H. unfold open_browser. quiet_auto. Qed.
Hint Resolve quiet_open_browser : quiet.

Lemma quiet_get_driver : quiet (_get_driver env).
Proof.
  unfold _get_driver. quiet_auto;
    apply quiet_open_browser; quiet_auto.
Qed.
Hint Resolve quiet_get_driver : quiet.

Lemma quiet_poll_title d : quiet (poll_title env d).
Proof. unfold poll_title. quiet_auto. Qed.
Hint Resolve quiet_poll_title : quiet.

Lemma quiet_wait_rounds n d start : quiet (wait_rounds env n d start).
Proof. induction n; simpl; quiet_auto. Qed.
Hint Resolve quiet_wait_rounds : quiet.

Lemma quiet_wait_for_page_load d : quiet (_wait_for_page_load env d).
Proof. unfold _wait_for_page_load. quiet_auto. Qed.

Lemma quiet_accept_first d l : quiet (accept_first env d l).
Proof.
  induction l; simpl; unfold wait_clickable, element_click; quiet_auto.
Qed.
Hint Resolve quiet_wait_for_page_load quiet_accept_first : quiet.

Lemma quiet_accept_cookies d : quiet (_accept_cookies env d).
Proof. unfold _accept_cookies. quiet_auto. Qed.
Hint Resolve quiet_accept_cookies : quiet.

Lemma quiet_price_dom_from d l : quiet (price_dom_from env d l).
Proof.
  induction l; simpl; unfold driver_find_element, element_text; quiet_auto.
Qed.

Lemma quiet_price_card_from c l : quiet (price_card_from env c l).
Proof.
  induction l; simpl; unfold element_find, element_text; quiet_auto.
Qed.
Hint Resolve quiet_price_dom_from quiet_price_card_from : quiet.

Lemma quiet_extract_price_dom d : quiet (_extract_price_dom env d).
Proof. unfold _extract_price_dom. quiet_auto. Qed.

Lemma quiet_extract_price_card c : quiet (_extract_price_card env c).
Proof. unfold _extract_price_card. quiet_auto. Qed.

Lemma quiet_extract_seller_dom d : quiet (_extract_seller_dom env d).
Proof.
  unfold _extract_seller_dom, driver_find_element, element_text. quiet_auto.
Qed.

Lemma quiet_extract_seller_card c : quiet (_extract_seller_card env c).
Proof.
  unfold _extract_seller_card, element_find, element_text. quiet_auto.
Qed.
Hint Resolve quiet_extract_price_dom quiet_extract_price_card
  quiet_extract_seller_dom quiet_extract_seller_card : quiet.

Lemma quiet_extract_product_page d url : quiet (_extract_product_page env d url).
Proof.
  unfold _extract_product_page, driver_page_source, driver_find_element,
    element_text.
  quiet_auto.
Qed.

Lemma quiet_find_card d l : quiet (find_card env d l).
Proof. induction l; simpl; unfold wait_presence; quiet_auto. Qed.

Lemma quiet_card_name c l n : quiet (card_name env c l n).
Proof.
  revert n. induction l; simpl; unfold element_find, element_text; quiet_auto.
Qed.

Lemma quiet_card_url c : quiet (card_url env c).
Proof.
  unfold card_url, element_find, element_get_attribute. quiet_auto.
Qed.
Hint Resolve quiet_extract_product_page quiet_find_card quiet_card_name
  quiet_card_url : quiet.

Lemma quiet_extract_from_search_dom d : quiet (_extract_from_search_dom env d).
Proof. unfold _extract_from_search_dom. quiet_auto. Qed.

Lemma quiet_wait_for_cards n d : quiet (wait_for_cards env n d).
Proof.
  induction n; simpl; unfold driver_execute_script, driver_find_elements;
    quiet_auto.
Qed.
Hint Resolve quiet_extract_from_search_dom quiet_wait_for_cards : quiet.

Lemma quiet_search_with_selenium_body term :
  quiet (search_with_selenium_body env term).
Proof.
  unfold search_with_selenium_body, driver_get, driver_current_url,
    driver_page_source.
  quiet_auto.
Qed.

Lemma quiet_selenium_handlers e : quiet (selenium_handlers env e).
Proof. unfold selenium_handlers. quiet_auto. Qed.
Hint Resolve quiet_search_with_selenium_body quiet_selenium_handlers : quiet.

Lemma quiet_search_with_selenium term : quiet (_search_with_selenium env term).
Proof. unfold _search_with_selenium. quiet_auto. Qed.
Hint Resolve quiet_search_with_selenium : quiet.

Lemma quiet_try_terms terms : quiet (try_terms env terms).
Proof. induction terms; simpl; quiet_auto. Qed.
Hint Resolve quiet_try_terms : quiet.

Lemma quiet_search_product query ean : quiet (search_product env query ean).
Proof. unfold search_product. quiet_auto. Qed.

(** The static fetch is what writes to the HTTP session. *)
Lemma search_with_requests_is_not_quiet bs term q w :
  quote_plus env term = Return q ->
  http_requests (snd (_search_with_requests env bs term w))
  = EvHttpGet (SEARCH_URL ++ py "?query=" ++ q) 15 :: http_requests w.
Proof.
  intros Hq. unfold _search_with_requests, try_except, bind, lift, session_get, ask.
  rewrite Hq. simpl.
  destruct (answer_response env _) as [resp|e]; simpl.
  - repeat match goal with
           | |- context [if ?b then _ else _] => destruct b; simpl
           end; try reflexivity.
    destruct (_extract_from_page_data env (text resp)) as [r|]; simpl;
      [destruct (acceptable r)|]; reflexivity.
  - unfold requests_handlers. destruct (exn_kind e); reflexivity.
Qed.

End Quiet.

(** ** What the records look like *)

Lemma built_error msg : built (error_record msg).
Proof. left. eauto. Qed.

Lemma built_parse_product_json product : built (_parse_product_json product).
Proof.
  unfold _parse_product_json.
  destruct (parse_product_json_body product) as [r|e] eqn:E;
    [|apply built_error].
  unfold parse_product_json_body in E.
  repeat (apply obind_Return in E; destruct E as (? & ? & E)).
  inversion E; subst; clear E. right. simpl. eauto.
Qed.

Lemma listing_parsed props keys rest r :
  (rest = Return (Some r) -> exists p, r = _parse_product_json p) ->
  listing props keys rest = Return (Some r) ->
  exists p, r = _parse_product_json p.
Proof.
  intros Hrest. induction keys as [|key keys IH]; simpl; [assumption|].
  intros E. apply obind_Return in E. destruct E as (sd & _ & E).
  destruct (negb (truthy sd)); [auto|].
  apply obind_Return in E. destruct E as (a & _ & E).
  apply obind_Return in E. destruct E as (products & _ & E).
  destruct (truthy products); [|auto].
  apply obind_Return in E. destruct E as (first & _ & E).
  inversion E. eauto.
Qed.

(** A record found in the embedded payload is the mapping of one item. *)
Lemma page_data_parsed env html r :
  _extract_from_page_data env html = Some r ->
  exists p, r = _parse_product_json p.
Proof.
  unfold _extract_from_page_data.
  destruct (page_data_body env html) as [o|e] eqn:E; [|discriminate].
  intros ->. unfold page_data_body in E.
  destruct (next_data html); [|discriminate].
  apply obind_Return in E. destruct E as (data & _ & E).
  apply obind_Return in E. destruct E as (top & _ & E).
  apply obind_Return in E. destruct E as (props & _ & E).
  eapply listing_parsed; [|exact E].
  intros E'. apply obind_Return in E'. destruct E' as (a & _ & E').
  apply obind_Return in E'. destruct E' as (pd & _ & E').
  destruct (truthy pd); inversion E'. eauto.
Qed.

Lemma built_page_data env html r :
  _extract_from_page_data env html = Some r -> built r.
Proof.
  intros H. apply page_data_parsed in H. destruct H as (p & ->).
  apply built_parse_product_json.
Qed.

Lemma built_set_url r u : built r -> truthy (name r) = true -> built (set_url r u).
Proof.
  intros [(msg & ->)|(He & Hs)] Hn; [discriminate|].
  right. simpl. auto.
Qed.

Lemma or_Worten_nonempty s : or_Worten s <> [].
Proof. destruct s; simpl; [vm_compute|]; discriminate. Qed.

Lemma Worten_nonempty : py "Worten" <> [].
Proof. vm_compute. discriminate. Qed.

Create HintDb built.
#[export] Hint Resolve built_error built_parse_product_json built_page_data
  or_Worten_nonempty Worten_nonempty : built.

(** A record assembled from extracted fields, with a seller in hand. *)
Lemma built_fields n u p s :
  s <> [] ->
  built {| name := n; url := u; price := p; seller := PStr s;
           is_available := PBool (is_some p); error := None |}.
Proof. intros H. right. simpl. eauto. Qed.
#[export] Hint Resolve built_fields : built.

Ltac returns_step :=
  match goal with
  | |- forall _, _ => intros
  | |- returns _ (raise _) => apply returns_raise
  | |- returns _ (ret _) => apply returns_ret; solve [eauto with built]
  | |- returns _ (try_except _ _) => apply returns_try
  | |- returns _ (match ?x with _ => _ end) => destruct x eqn:?
  | |- returns _ _ => solve [eauto with built]
  | |- returns _ (bind _ _) => apply returns_then
  end.

Ltac returns_auto := repeat returns_step.

Section Built.

Variable env : Environment.

Lemma seller_dom_nonempty d :
  returns (fun s => s <> []) (_extract_seller_dom env d).
Proof. unfold _extract_seller_dom. returns_auto. Qed.

Lemma seller_card_nonempty c :
  returns (fun s => s <> []) (_extract_seller_card env c).
Proof. unfold _extract_seller_card. returns_auto. Qed.

Lemma built_extract_product_page d u :
  returns built (_extract_product_page env d u).
Proof.
  unfold _extract_product_page. apply returns_then. intros source.
  cbv zeta.
  match goal with
  | |- returns _ (match _ with Some _ => if _ then _ else ?m | None => _ end) =>
    assert (Hdom : returns built m)
  end.
  { do 2 (apply returns_then; intros).
    eapply returns_bind; [apply seller_dom_nonempty|].
    returns_auto. }
  destruct (_extract_from_page_data env source) as [r|] eqn:E; [|assumption].
  destruct (truthy (name r)) eqn:T; [|assumption].
  apply returns_ret. apply built_set_url; eauto with built.
Qed.

Lemma built_extract_from_search_dom d :
  returns built (_extract_from_search_dom env d).
Proof.
  unfold _extract_from_search_dom.
  destruct (negb (SELENIUM_AVAILABLE env)); [returns_auto|].
  apply returns_try; [|returns_auto].
  apply returns_then. intros [product|]; [|returns_auto].
  do 3 (apply returns_then; intros).
  eapply returns_bind; [apply seller_card_nonempty|].
  returns_auto.
Qed.
Hint Resolve built_extract_product_page built_extract_from_search_dom : built.

Lemma built_search_with_selenium term :
  returns built (_search_with_selenium env term).
Proof.
  unfold _search_with_selenium, search_with_selenium_body, selenium_handlers.
  returns_auto.
Qed.
Hint Resolve built_search_with_selenium : built.

Lemma built_try_terms terms :
  returns (fun o => forall r, o = Some r -> built r) (try_terms env terms).
Proof.
  induction terms as [|term rest IH]; simpl.
  - apply returns_ret. discriminate.
  - eapply returns_bind; [apply built_search_with_selenium|].
    intros r Hr. destruct (acceptable r).
    + apply returns_ret. intros r' E. inversion E; subst; assumption.
    + apply returns_then. intros _. assumption.
Qed.

Lemma built_search_product query ean :
  returns built (search_product env query ean).
Proof.
  unfold search_product. destruct (search_terms query) as [|t l].
  - returns_auto.
  - apply returns_then. intros self.
    eapply returns_bind with (Q := fun o => forall r, o = Some r -> built r).
    + destruct (_ && _); [apply built_try_terms|].
      apply returns_ret. discriminate.
    + intros [r|] H; apply returns_ret; [auto|apply built_error].
Qed.

End Built.

Section BuiltHtml.

Variable env : Environment.
Variable bs : Soup.

Lemma seller_html_nonempty t s : _extract_seller_html bs t = Return s -> s <> [].
Proof.
  unfold _extract_seller_html. intros E.
  apply obind_Return in E. destruct E as ([e|] & _ & E).
  - apply obind_Return in E. destruct E as (x & _ & E).
    inversion E. apply or_Worten_nonempty.
  - inversion E. apply Worten_nonempty.
Qed.

Lemma built_extract_from_search_html html :
  built (_extract_from_search_html bs html).
Proof.
  unfold _extract_from_search_html.
  destruct (search_html_body bs html) as [r|e] eqn:E; [|apply built_error].
  unfold search_html_body in E.
  apply obind_Return in E. destruct E as (soup & _ & E).
  apply obind_Return in E. destruct E as ([product|] & _ & E).
  - repeat (apply obind_Return in E; destruct E as (? & ? & E)).
    inversion E; subst. apply built_fields.
    eapply seller_html_nonempty; eauto.
  - inversion E. apply built_error.
Qed.

Lemma built_search_with_requests term :
  returns built (_search_with_requests env bs term).
Proof.
  pose proof built_extract_from_search_html.
  unfold _search_with_requests, requests_handlers. returns_auto.
Qed.

End BuiltHtml.

(** ** ResultRecord invariants *)

Lemma returns_weaken {A} (P Q : A -> Prop) (m : M A) :
  (forall a, P a -> Q a) -> returns P m -> returns Q m.
Proof. intros H Hm w a w' E. eauto. Qed.

Lemma built_consistent r : built r -> consistent r.
Proof.
  intros [(msg & ->)|(He & _)] H; [reflexivity | congruence].
Qed.

(** C2.  Every record produced by [search_product], by an attempt, by an
    extractor or by the static fetch that has its error set is marked
    unavailable. *)
Theorem error_excludes_available env bs :
  (forall query ean, returns consistent (search_product env query ean))
  /\ (forall term, returns consistent (_search_with_selenium env term))
  /\ (forall d u, returns consistent (_extract_product_page env d u))
  /\ (forall d, returns consistent (_extract_from_search_dom env d))
  /\ (forall html r, _extract_from_page_data env html = Some r -> consistent r)
  /\ (forall product, consistent (_parse_product_json product))
  /\ (forall term, returns consistent (_search_with_requests env bs term))
  /\ (forall html, consistent (_extract_from_search_html bs html)).
Proof.
  repeat split; intros;
    try (eapply returns_weaken; [exact built_consistent|]);
    try apply built_consistent;
    eauto using built_search_product, built_search_with_selenium,
      built_extract_product_page, built_extract_from_search_dom,
      built_page_data, built_parse_product_json, built_search_with_requests,
      built_extract_from_search_html.
Qed.

(** ** The seller *)







(** ** SearchOrchestrator *)

Section Orchestrator.

Variable env : Environment.

Lemma wf_fresh h u v now history : wf env (__init__ h u v now history).
Proof. intros _. reflexivity. Qed.

Lemma wf_sleep ms w : wf env w -> wf env (record_event (EvSleep ms) ms w).
Proof. intros H S. simpl. auto. Qed.

(** Without Selenium an attempt ends before any request: no browser can be
    had. *)
Lemma body_without_selenium term w :
  SELENIUM_AVAILABLE env = false -> _driver w = None ->
  search_with_selenium_body env term w
  = (Return (error_record (py "WebDriver não disponível")),
     if _driver_failed w then w else set_driver_failed true w).
Proof.
  intros S D.
  unfold search_with_selenium_body, _get_driver, bind, self_.
  rewrite D. destruct (_driver_failed w); [reflexivity|].
  unfold UNDETECTED_AVAILABLE. unfold SELENIUM_AVAILABLE in *.
  destruct (installed env); try discriminate. reflexivity.
Qed.

(** The handlers of an attempt turn whatever its body raised into an
    error record. *)
Lemma handlers_convert e w :
  SELENIUM_AVAILABLE env = true ->
  exists msg w', selenium_handlers env e w = (Return (error_record msg), w').
Proof.
  intros S. unfold selenium_handlers. rewrite S.
  destruct (exn_kind e); unfold bind, update, ret; simpl; eauto.
Qed.

Lemma attempt_returns term w :
  wf env w ->
  exists r w', _search_with_selenium env term w = (Return r, w') /\ wf env w'.
Proof.
  intros H. unfold _search_with_selenium, try_except.
  destruct (SELENIUM_AVAILABLE env) eqn:S.
  - destruct (search_with_selenium_body env term w) as [[r|e] w1].
    + exists r, w1. split; [reflexivity|]. intros S'. congruence.
    + destruct (handlers_convert e w1 S) as (msg & w' & ->).
      exists (error_record msg), w'. split; [reflexivity|].
      intros S'. congruence.
  - rewrite (body_without_selenium term w S (H S)).
    eexists _, _. split; [reflexivity|].
    intros _. destruct (_driver_failed w); simpl; auto.
Qed.

Lemma attempt_converts term w e w1 :
  wf env w ->
  search_with_selenium_body env term w = (Raise e, w1) ->
  exists msg w2,
    _search_with_selenium env term w = (Return (error_record msg), w2).
Proof.
  intros H E. unfold _search_with_selenium, try_except.
  destruct (SELENIUM_AVAILABLE env) eqn:S.
  - rewrite E. apply handlers_convert. assumption.
  - rewrite (body_without_selenium term w S (H S)) in E. discriminate.
Qed.

(** The loop over the terms, seen from outside: it stops at the first term
    whose record is acceptable, after the attempts before it were all
    rejected, or it rejects every term. *)
Lemma try_terms_spec terms w :
  wf env w ->
  (exists before term after w1 r w2,
      terms = before ++ term :: after
      /\ rejected env before w w1
      /\ _search_with_selenium env term w1 = (Return r, w2)
      /\ acceptable r = true
      /\ try_terms env terms w = (Return (Some r), w2)
      /\ wf env w2)
  \/ (exists w2, rejected env terms w w2
                 /\ try_terms env terms w = (Return None, w2)
                 /\ wf env w2).
Proof.
  revert w. induction terms as [|term rest IH]; intros w H.
  - right. exists w. repeat split; [constructor | assumption].
  - destruct (attempt_returns term w H) as (r & w1 & E & H1).
    assert (Step : try_terms env (term :: rest) w
                   = if acceptable r then (Return (Some r), w1)
                     else try_terms env rest (record_event (EvSleep 500) 500 w1)).
    { simpl. unfold bind, sleep, update. rewrite E.
      destruct (acceptable r); reflexivity. }
    rewrite Step. destruct (acceptable r) eqn:A.
    + left. exists [], term, rest, w, r, w1.
      repeat split; auto. constructor.
    + destruct (IH _ (wf_sleep 500 w1 H1))
        as [(before & t & after & w2 & r' & w3 & -> & Hr & Et & At & Ett & H3)
           |(w2 & Hr & Ett & H2)].
      * left. exists (term :: before), t, after, w2, r', w3.
        repeat split; auto. econstructor; eauto.
      * right. exists w2. repeat split; auto. econstructor; eauto.
Qed.

Lemma search_product_disabled query ean w :
  search_terms query <> [] ->
  use_selenium w && negb (_driver_failed w) = false ->
  search_product env query ean w = (Return not_found, w).
Proof.
  intros Ht Hd. unfold search_product.
  destruct (search_terms query); [congruence|].
  unfold bind, self_. rewrite Hd. reflexivity.
Qed.

End Orchestrator.

(** C1.  From any state a scraper can be in, [search_product] returns a
    record and leaves the scraper in such a state again; and whenever the
    body of an attempt raises, whatever the exception, the attempt returns
    an error record. *)
Theorem search_product_never_raises env query ean w :
  wf env w ->
  (exists r w', search_product env query ean w = (Return r, w') /\ wf env w')
  /\ (forall term w0 e w1,
        wf env w0 ->
        search_with_selenium_body env term w0 = (Raise e, w1) ->
        exists msg w2,
          _search_with_selenium env term w0
          = (Return (error_record msg), w2)
          /\ error (error_record msg) = Some msg).
Proof.
  intros H. split.
  - unfold search_product. destruct (search_terms query) as [|t l] eqn:T.
    + unfold ret. eauto.
    + unfold bind at 1, self_. unfold bind at 1.
      destruct (use_selenium w && negb (_driver_failed w)).
      * destruct (try_terms_spec env (t :: l) w H)
          as [(before & term & after & w1 & r' & w3 & _ & _ & _ & _ & -> & H3)
             |(w2 & _ & -> & H2)]; unfold ret; eauto.
      * unfold ret. eauto.
  - intros term w0 e w1 H0 E.
    destruct (attempt_converts env term w0 e w1 H0 E) as (msg & w2 & E').
    eauto.
Qed.

Lemma search_product_never_raises_witness :
  wf offline_env fresh
  /\ exists r w',
       search_product offline_env (py "iPhone 15 Pro") None fresh = (Return r, w')
       /\ wf offline_env w'.
Proof.
  assert (H : wf offline_env fresh) by (intros _; reflexivity).
  split; [exact H|].
  exact (proj1 (search_product_never_raises offline_env (py "iPhone 15 Pro")
                  None fresh H)).
Defined.

(** C5.  For a name that yields at least one term, [search_product] tries
    the terms in order, returns the first acceptable record without any
    further attempt, and otherwise returns the record whose error says that
    the product was not found at Worten. *)
Theorem search_product_stops_at_first_acceptable env query ean w :
  wf env w ->
  search_terms query <> [] ->
  stops_at_first_acceptable env query ean w
  /\ error not_found = Some (py "Produto não encontrado na Worten").
Proof.
  intros H Ht. split; [|reflexivity].
  unfold stops_at_first_acceptable.
  destruct (use_selenium w && negb (_driver_failed w)) eqn:U.
  - assert (Run : search_product env query ean w
                  = match try_terms env (search_terms query) w with
                    | (Return (Some r), w') => (Return r, w')
                    | (Return None, w') => (Return not_found, w')
                    | (Raise e, w') => (Raise e, w')
                    end).
    { unfold search_product. destruct (search_terms query) as [|t l];
        [congruence|].
      unfold bind, self_. rewrite U.
      destruct (try_terms env (t :: l) w) as [[[r|]|e] w']; reflexivity. }
    destruct (try_terms_spec env (search_terms query) w H)
      as [(before & term & after & w1 & r & w2 & Eq & Hr & Et & A & Ett & _)
         |(w2 & Hr & Ett & _)]; rewrite Ett in Run.
    + left. exists before, term, after, w1, r, w2. auto.
    + right. exists w2. auto.
  - apply search_product_disabled; assumption.
Qed.

Lemma search_product_stops_witness :
  wf shop_env fresh
  /\ search_terms (py "iPhone 15 Pro") <> []
  /\ stops_at_first_acceptable shop_env (py "iPhone 15 Pro") None fresh.
Proof.
  assert (H : wf shop_env fresh) by (intros _; reflexivity).
  assert (Ht : search_terms (py "iPhone 15 Pro") <> [])
    by (vm_compute; discriminate).
  split; [exact H | split; [exact Ht|]].
  exact (proj1 (search_product_stops_at_first_acceptable shop_env
                  (py "iPhone 15 Pro") None fresh H Ht)).
Defined.

(** C9.  With [use_selenium] off, or once the driver is marked failed, a
    name that yields a term gets the not-found record and the world is left
    as it was: no request, no pause.  And in every state and for every name
    the HTTP session receives no request from [search_product]. *)
Theorem search_product_without_browser env query ean w :
  (search_terms query <> [] ->
   use_selenium w = false \/ _driver_failed w = true ->
   search_product env query ean w = (Return not_found, w))
  /\ http_requests (snd (search_product env query ean w)) = http_requests w.
Proof.
  split.
  - intros Ht Hd. apply search_product_disabled; [assumption|].
    destruct Hd as [-> | ->]; [reflexivity | apply andb_false_r].
  - apply quiet_search_product.
Qed.

Lemma search_product_without_browser_witness :
  search_product shop_env (py "iPhone 15 Pro") None
    (__init__ false false None 0 [])
  = (Return not_found, __init__ false false None 0 []).
Proof.
  apply (proj1 (search_product_without_browser shop_env (py "iPhone 15 Pro")
                  None (__init__ false false None 0 []))).
  - vm_compute. discriminate.
  - left. reflexivity.
Defined.

(** C10.  The barcode plays no part: with any two values of [ean] the
    call is the same computation, so it returns the same record and leaves
    the same state whenever the environment answers alike. *)
Theorem search_product_ignores_ean env query ean1 ean2 :
  search_product env query ean1 = search_product env query ean2.
Proof. reflexivity. Qed.

(** ** The bound on the rounds of [_wait_for_page_load] *)

Section Clock.

Variable env : Environment.

Lemma title_lower_clock d w : clock w <= clock (snd (title_lower env d w)).
Proof.
  unfold title_lower, bind, driver_title, ask. simpl.
  destruct (answer_optional env _) as [[[|c t]|]|e]; simpl; try lia.
  destruct (answer_optional env _) as [[t'|]|e]; simpl; lia.
Qed.

(** A round never turns the clock back, and a round that asks for another
    one has slept a second. *)
Lemma poll_title_clock d w :
  clock w <= clock (snd (poll_title env d w))
  /\ (fst (poll_title env d w) = Return Again ->
      clock w + 1000 <= clock (snd (poll_title env d w)))
  /\ (forall e, fst (poll_title env d w) <> Raise e).
Proof.
  pose proof (title_lower_clock d w) as H.
  unfold poll_title, try_except, bind.
  destruct (title_lower env d w) as [[title|e] w1]; cbn [fst snd] in H.
  - destruct (_ || _); simpl; repeat split; try lia; try discriminate.
  - simpl. repeat split; try lia; discriminate.
Qed.

Lemma wait_rounds_timeout n d start w :
  (clock w - start <? 10000) = false ->
  wait_rounds env n d start w = (Return false, w).
Proof.
  intros T. destruct n; simpl; unfold bind, time_time; rewrite T; reflexivity.
Qed.

Lemma wait_rounds_round n d start w :
  (clock w - start <? 10000) = true ->
  wait_rounds env (S n) d start w
  = match poll_title env d w with
    | (Return Loaded, w1) => (Return true, w1)
    | (Return Again, w1) => wait_rounds env n d start w1
    | (Return Failed, w1) =>
      wait_rounds env n d start (record_event (EvSleep 500) 500 w1)
    | (Raise e, w1) => (Raise e, w1)
    end.
Proof.
  intros T. simpl. unfold bind, time_time, sleep, update. rewrite T.
  destruct (poll_title env d w) as [[[| |]|e] w1]; reflexivity.
Qed.

Lemma wait_rounds_enough n : forall m d start w,
  start <= clock w ->
  10000 <= clock w - start + 500 * N.of_nat n ->
  10000 <= clock w - start + 500 * N.of_nat m ->
  wait_rounds env n d start w = wait_rounds env m d start w.
Proof.
  induction n as [|n IH]; intros m d start w Hs Hn Hm.
  - assert (T : (clock w - start <? 10000) = false) by (apply N.ltb_ge; lia).
    rewrite !wait_rounds_timeout by assumption. reflexivity.
  - destruct (clock w - start <? 10000) eqn:T.
    + destruct m as [|m]; [apply N.ltb_lt in T; lia|].
      rewrite !wait_rounds_round by assumption.
      destruct (poll_title_clock d w) as (H1 & H2 & H3).
      destruct (poll_title env d w) as [[p|e] w1]; cbn [fst snd] in H1, H2, H3;
        [|reflexivity].
      destruct p; [reflexivity | |].
      * specialize (H2 eq_refl). apply IH; lia.
      * apply IH; cbn [clock record_event]; lia.
    + rewrite !wait_rounds_timeout by assumption. reflexivity.
Qed.

(** Twenty rounds are as good as any larger number: the bound is never
    what ends the wait. *)
Lemma wait_for_page_load_rounds n d w :
  (20 <= n)%nat ->
  (start_time <- time_time ;; wait_rounds env n d start_time) w
  = _wait_for_page_load env d w.
Proof.
  intros H. unfold _wait_for_page_load, bind, time_time.
  apply wait_rounds_enough; lia.
Qed.

End Clock.

(** * Further properties of the scraper *)

(** ** PriceParser *)

(** X1.  Every price that [_parse_price] returns passes the comparison
    [price > 0] without raising and is truthy, so that no caller that tests
    [if price] or [price > 0] ever sees a zero, a negative number or a NaN
    from the text path. *)
Theorem parse_price_is_positive text d :
  _parse_price text = Some d ->
  Decimal_gt0 d = Return true /\ Decimal_bool d = true.
Proof.
  intros E. apply parse_price_positive in E.
  destruct d as [neg c e|neg|neg sg pl]; simpl in E.
  - destruct E as [-> Hc]. simpl. split.
    + f_equal. apply N.ltb_lt. exact Hc.
    + apply negb_true_iff, N.eqb_neq. lia.
  - subst neg. split; reflexivity.
  - contradiction.
Qed.

Lemma parse_price_is_positive_witness :
  Decimal_gt0 (Finite false 123456 (-2)) = Return true
  /\ Decimal_bool (Finite false 123456 (-2)) = true.
Proof.
  exact (parse_price_is_positive (py "1.234,56") (Finite false 123456 (-2))
           ltac:(vm_compute; reflexivity)).
Defined.

Lemma strip_currency_filter text :
  strip_currency text = filter (fun c => negb (currency_or_space c)) text.
Proof. reflexivity. Qed.

Lemma filter_twice {A} (f : A -> bool) l : filter f (filter f l) = filter f l.
Proof.
  induction l as [|x l IH]; simpl; [reflexivity|].
  destruct (f x) eqn:E; simpl; [rewrite E, IH|]; auto.
Qed.

(** The parser only looks at the text left after the deletion. *)
Lemma parse_price_of_cleaned text :
  _parse_price text = _parse_price (strip_currency text).
Proof.
  destruct text as [|c t]; [reflexivity|].
  destruct (strip_currency (c :: t)) as [|x s] eqn:E.
  - unfold _parse_price. rewrite E. reflexivity.
  - assert (I : strip_currency (x :: s) = x :: s).
    { rewrite <- E. unfold strip_currency. apply filter_twice. }
    unfold _parse_price. rewrite E, I. reflexivity.
Qed.

(** X2.  A euro sign, a capital E, U or R, or a whitespace character may be
    put anywhere in a price text, or taken out of it, without changing what
    [_parse_price] returns. *)
Theorem parse_price_ignores_currency a b c :
  currency_or_space c = true ->
  _parse_price (a ++ c :: b) = _parse_price (a ++ b).
Proof.
  intros H.
  rewrite (parse_price_of_cleaned (a ++ c :: b)), (parse_price_of_cleaned (a ++ b)).
  f_equal. unfold strip_currency. rewrite !filter_app. simpl.
  unfold currency_or_space in H. rewrite H. reflexivity.
Qed.

Lemma parse_price_ignores_currency_witness :
  _parse_price (py "12," ++ 32 :: py "50") = _parse_price (py "12," ++ py "50").
Proof. apply parse_price_ignores_currency. reflexivity. Defined.

Lemma search_number_no_digit s :
  (forall c, In c s -> is_digit c = false) -> search_number s = None.
Proof.
  induction s as [|c s IH]; intros H; simpl; [reflexivity|].
  rewrite (H c) by (left; reflexivity).
  apply IH. intros x Hx. apply H. right. assumption.
Qed.

Lemma replace_from_keeps old new k s (P : N -> Prop) :
  (forall c, In c new -> P c) ->
  (forall c, In c s -> P c) ->
  forall c, In c (replace_from old new k s) -> P c.
Proof.
  intros Hn. revert k. induction s as [|x s IH]; intros k Hs c H;
    cbn [replace_from] in H; [destruct H|].
  assert (Hs' : forall c, In c s -> P c) by (intros y Hy; apply Hs; right; exact Hy).
  destruct k as [|k].
  - destruct (startswith (x :: s) old).
    + apply in_app_iff in H. destruct H as [H|H]; [auto | eapply IH; eauto].
    + destruct H as [<-|H]; [apply Hs; left; reflexivity | eapply IH; eauto].
  - eapply IH; eauto.
Qed.

(** X3.  A text without any decimal digit has no price. *)
Theorem parse_price_needs_a_digit text :
  (forall c, In c text -> is_digit c = false) -> _parse_price text = None.
Proof.
  intros H. unfold _parse_price. destruct text as [|c0 t]; [reflexivity|].
  assert (Hc : forall c, In c (strip_currency (c0 :: t)) -> is_digit c = false).
  { intros c Hc. apply H. rewrite strip_currency_filter in Hc.
    apply filter_In in Hc. tauto. }
  assert (Hpoint : forall c, In c (py ".") -> is_digit c = false).
  { intros c [<-|[]]. reflexivity. }
  assert (Hnil : forall c, In c (@nil N) -> is_digit c = false) by (intros c []).
  rewrite search_number_no_digit; [reflexivity|].
  destruct (_ && _); [|destruct (str_in (py ",") _)]; auto.
  - unfold replace. apply replace_from_keeps; [exact Hpoint|].
    apply replace_from_keeps; [exact Hnil | exact Hc].
  - unfold replace. apply replace_from_keeps; [exact Hpoint | exact Hc].
Qed.

Lemma parse_price_needs_a_digit_witness : _parse_price (py "sob consulta") = None.
Proof.
  apply parse_price_needs_a_digit.
  intros c H. vm_compute in H.
  repeat (destruct H as [<-|H]; [reflexivity|]). destruct H.
Defined.

(** ** The field mapping of the JSON path *)

Lemma nested_price_of_object item paths rest :
  (exists r, rest = Return r) ->
  exists r, nested_price (PDict item) paths rest = Return r.
Proof.
  intros Hr. induction paths as [|[field subfield] paths IH]; simpl; [assumption|].
  destruct (match lookup field item with Some v => v | None => PDict [] end);
    try assumption.
  destruct (lookup subfield d); [|assumption].
  destruct (Decimal_str p); [eauto | assumption].
Qed.

Lemma flat_price_of_object item fields :
  exists r, flat_price (PDict item) fields = Return r.
Proof.
  induction fields as [|field fields IH]; simpl; [eauto|].
  destruct (_ && _); [|assumption].
  destruct (Decimal_str _); [eauto | assumption].
Qed.

Lemma price_of_object item : exists r, _get_price_from_json (PDict item) = Return r.
Proof.
  unfold _get_price_from_json. apply nested_price_of_object.
  apply flat_price_of_object.
Qed.

Lemma seller_of_object item : exists s, _get_seller_from_json (PDict item) = Return s.
Proof.
  unfold _get_seller_from_json. simpl.
  destruct (match lookup (py "seller") item with Some v => v | None => PDict [] end);
    simpl; eauto.
Qed.

(** X4.  The mapping of a JSON item fails, with the record "Erro ao parsear
    produto do JSON", on every value that is not an object; on an object it
    fails exactly when [slug] (or, failing that, [url]) holds a truthy value
    that is not a string. *)
Theorem parse_product_json_failures :
  (forall v, is_dict v = false ->
     _parse_product_json v = error_record (py "Erro ao parsear produto do JSON"))
  /\ (forall item,
        _parse_product_json (PDict item)
        = error_record (py "Erro ao parsear produto do JSON")
        <-> truthy (slug_of item) && negb (is_str (slug_of item)) = true).
Proof.
  split.
  - intros v H. destruct v; try discriminate; reflexivity.
  - intros item. unfold _parse_product_json, parse_product_json_body, slug_of, py_or.
    cbn [py_get obind].
    set (n := match lookup (py "name") item with Some v => v | None => PNone end).
    set (t := match lookup (py "title") item with Some v => v | None => PNone end).
    set (s := match lookup (py "slug") item with Some v => v | None => PNone end).
    set (u := match lookup (py "url") item with Some v => v | None => PNone end).
    destruct (price_of_object item) as (p & ->).
    destruct (seller_of_object item) as (sl & ->).
    assert (Hname : exists nm, (if truthy n then Return n else Return t) = Return nm)
      by (destruct (truthy n); eauto).
    destruct Hname as (nm & ->). cbn [obind].
    assert (Hslug : (if truthy s then Return s else Return u)
                    = Return (if truthy s then s else u))
      by (destruct (truthy s); reflexivity).
    rewrite Hslug. cbn [obind].
    set (slug := if truthy s then s else u).
    assert (Hav : forall (k : pyval -> ScrapedProduct) msg,
               match
                 obind (if match p with Some d => Decimal_bool d | None => false end
                        then obind (py_get (PDict item) (py "available") (PBool true))
                               (fun a => if truthy a then Return a
                                         else py_get (PDict item) (py "inStock")
                                                (PBool true))
                        else Return (PBool false))
                       (fun x => Return (k x))
               with
               | Return r => r
               | Raise _ => error_record msg
               end = error_record msg ->
               exists x, k x = error_record msg).
    { intros k msg. destruct p as [d|]; [destruct (Decimal_bool d)|];
        cbn [obind py_get]; eauto.
      match goal with
      | |- context [if truthy ?x then _ else _] => destruct (truthy x)
      end; cbn [obind]; eauto. }
    destruct (truthy slug) eqn:T.
    + destruct slug; cbn [obind is_str negb andb];
        try (split; [reflexivity | reflexivity]).
      split; [|discriminate].
      intros H. apply Hav in H. destruct H as (x & H). discriminate.
    + cbn [obind andb].
      split; [|discriminate].
      intros H. apply Hav in H. destruct H as (x & H). discriminate.
Qed.

Lemma parse_product_json_body_fields product r :
  parse_product_json_body product = Return r ->
  error r = None
  /\ (forall u, url r = Some u -> startswith u (py "http") = true)
  /\ (truthy (is_available r) = true ->
      exists d, price r = Some d /\ Decimal_bool d = true).
Proof.
  unfold parse_product_json_body. intros E.
  apply obind_Return in E. destruct E as (n & _ & E).
  apply obind_Return in E. destruct E as (nm & _ & E).
  apply obind_Return in E. destruct E as (s & _ & E).
  apply obind_Return in E. destruct E as (slug & _ & E).
  apply obind_Return in E. destruct E as (u & Hu & E).
  apply obind_Return in E. destruct E as (p & _ & E).
  apply obind_Return in E. destruct E as (sl & _ & E).
  apply obind_Return in E. destruct E as (a & Ha & E).
  inversion E; subst; clear E. cbn [error url price is_available].
  split; [reflexivity|]. split.
  - intros u' ->. destruct (truthy slug); [|discriminate].
    destruct slug; try discriminate. inversion Hu; subst; clear Hu.
    destruct (startswith s0 (py "http")) eqn:S; [assumption | reflexivity].
  - intros T. destruct p as [d|].
    + destruct (Decimal_bool d) eqn:B; [eauto|].
      inversion Ha; subst. discriminate.
    + inversion Ha; subst. discriminate.
Qed.

(** X5.  An address mapped from JSON is absolute: the slug itself when it
    starts with http, the base URL followed by the slug otherwise. *)
Theorem json_url_is_absolute product u :
  url (_parse_product_json product) = Some u ->
  startswith u (py "http") = true.
Proof.
  unfold _parse_product_json.
  destruct (parse_product_json_body product) as [r|e] eqn:E; [|discriminate].
  apply parse_product_json_body_fields in E. destruct E as (_ & H & _). apply H.
Qed.

Lemma json_url_is_absolute_witness :
  url (_parse_product_json widget) = Some (BASE_URL ++ py "/p/widget-1")
  /\ startswith (BASE_URL ++ py "/p/widget-1") (py "http") = true.
Proof.
  assert (E : url (_parse_product_json widget) = Some (BASE_URL ++ py "/p/widget-1"))
    by (vm_compute; reflexivity).
  split; [exact E | exact (json_url_is_absolute _ _ E)].
Defined.

(** X6.  A record mapped from JSON is available only with a price that is
    present and not zero. *)
Theorem json_available_needs_price product :
  truthy (is_available (_parse_product_json product)) = true ->
  exists d, price (_parse_product_json product) = Some d /\ Decimal_bool d = true.
Proof.
  unfold _parse_product_json.
  destruct (parse_product_json_body product) as [r|e] eqn:E; [|discriminate].
  apply parse_product_json_body_fields in E. destruct E as (_ & _ & H). apply H.
Qed.

Lemma json_available_needs_price_witness :
  exists d, price (_parse_product_json widget) = Some d /\ Decimal_bool d = true.
Proof. apply json_available_needs_price. vm_compute. reflexivity. Defined.

(** ** PageDataExtractor *)

Lemma after_first_none pat s : str_in pat s = false -> after_first pat s = None.
Proof.
  induction s as [|c s IH]; simpl; intros H; apply orb_false_iff in H;
    destruct H as (H1 & H2); rewrite H1; auto.
Qed.

(** X7.  A page that does not contain the opening of the payload script
    yields no record, and so does a page whose payload [json.loads]
    rejects. *)
Theorem page_data_absent env html :
  (str_in next_data_marker html = false -> _extract_from_page_data env html = None)
  /\ (forall payload e,
        next_data html = Some payload ->
        json_loads env payload = Raise e ->
        _extract_from_page_data env html = None).
Proof.
  unfold _extract_from_page_data, page_data_body. split.
  - intros H. unfold next_data. fold next_data_marker.
    rewrite (after_first_none _ _ H). reflexivity.
  - intros payload e -> ->. reflexivity.
Qed.

Lemma page_data_absent_witness :
  _extract_from_page_data shop_env (py "<html><body>Sem resultados</body></html>")
  = None.
Proof.
  apply (proj1 (page_data_absent shop_env _)). vm_compute. reflexivity.
Defined.

(** ** SearchTermPlanner *)

Lemma split_from_words cur s :
  (forall c, In c cur -> is_space c = false) ->
  forall w, In w (split_from cur s) -> is_word w.
Proof.
  revert cur. induction s as [|c s IH]; intros cur Hcur w; simpl.
  - destruct cur as [|x cur]; [intros []|].
    intros [<-|[]]. split.
    + intros E. apply (f_equal (@List.length N)) in E.
      rewrite length_rev in E. discriminate.
    + intros y Hy. apply Hcur. apply in_rev. assumption.
  - destruct (is_space c) eqn:Sp.
    + destruct cur as [|x cur].
      * apply IH. intros y [].
      * intros [<-|H].
        -- split.
           ++ intros E. apply (f_equal (@List.length N)) in E.
              rewrite length_rev in E. discriminate.
           ++ intros y Hy. apply Hcur. apply in_rev. assumption.
        -- revert H. apply IH. intros y [].
    + apply IH. intros y [<-|Hy]; auto.
Qed.

Lemma split_words query w : In w (split query) -> is_word w.
Proof. apply split_from_words. intros c []. Qed.

Lemma split_from_word w : forall cur rest,
  (forall c, In c w -> is_space c = false) ->
  split_from cur (w ++ rest) = split_from (rev w ++ cur) rest.
Proof.
  induction w as [|c w IH]; intros cur rest H; [reflexivity|].
  simpl. rewrite (H c) by (left; reflexivity).
  rewrite IH by (intros y Hy; apply H; right; assumption).
  rewrite <- app_assoc. reflexivity.
Qed.

(** Joining words with a space and splitting again gives the words back. *)
Lemma split_join words :
  Forall is_word words -> split (join (py " ") words) = words.
Proof.
  unfold split. induction words as [|w ws IH]; intros H; [reflexivity|].
  inversion H as [|? ? (Hne & Hsp) Hws]; subst.
  assert (R : rev w <> []).
  { intros E. apply Hne. apply (f_equal (@rev N)) in E.
    rewrite rev_involutive in E. assumption. }
  destruct ws as [|w' ws].
  - simpl. rewrite <- (app_nil_r w) at 1. rewrite split_from_word by assumption.
    rewrite app_nil_r. simpl. destruct (rev w) eqn:E; [congruence|].
    rewrite <- E, rev_involutive. reflexivity.
  - change (join (py " ") (w :: w' :: ws))
      with (w ++ 32 :: join (py " ") (w' :: ws)).
    rewrite split_from_word by assumption. rewrite app_nil_r.
    simpl split_from at 1.
    change (is_space 32) with true. cbv iota.
    destruct (rev w) eqn:E; [congruence|].
    rewrite <- E, rev_involutive. f_equal. apply IH. assumption.
Qed.

Lemma in_firstn {A} n (l : list A) x : In x (firstn n l) -> In x l.
Proof.
  revert l. induction n as [|n IH]; intros [|y l]; simpl; try tauto.
  intros [H|H]; auto.
Qed.

Lemma significant_is_long w : is_significant w = true -> (2 < List.length w)%nat.
Proof.
  unfold is_significant. intros H. apply andb_true_iff in H.
  destruct H as (_ & H). apply Nat.ltb_lt. assumption.
Qed.

(** X8.  When the name has a significant word, the first planned term is
    made of its first four significant words, in their order: splitting the
    term gives exactly these words. *)
Theorem first_term_is_the_significant_words query :
  filter is_significant (split query) <> [] ->
  exists term rest,
    search_terms query = term :: rest
    /\ split term = firstn 4 (filter is_significant (split query)).
Proof.
  intros H. unfold search_terms.
  destruct query as [|c q]; [exfalso; apply H; reflexivity|].
  destruct (filter is_significant (split (c :: q))) as [|s l] eqn:E;
    [congruence|].
  eexists _, _. split; [reflexivity|].
  apply split_join. apply Forall_forall. intros w Hw.
  apply (split_words (c :: q)).
  apply in_firstn in Hw. rewrite <- E in Hw.
  apply filter_In in Hw. tauto.
Qed.

Lemma first_term_witness :
  exists term rest,
    search_terms (py "Aspirador de Mão Rowenta X-Touch AC9736") = term :: rest
    /\ split term
       = firstn 4 (filter is_significant
                     (split (py "Aspirador de Mão Rowenta X-Touch AC9736"))).
Proof.
  apply first_term_is_the_significant_words. vm_compute. discriminate.
Defined.

(** X9.  The plan has at most two terms and none of them is empty, so a
    call makes at most two attempts and never searches for nothing. *)
Theorem plan_is_short query :
  (List.length (search_terms query) <= 2)%nat
  /\ forall term, In term (search_terms query) -> term <> [].
Proof.
  unfold search_terms.
  destruct query as [|c q]; [split; [simpl; lia | intros t []]|].
  split.
  - rewrite length_app.
    destruct (filter is_significant (split (c :: q)));
      destruct (List.length (split (c :: q)) <=? 5)%nat; simpl; lia.
  - intros t Ht. apply in_app_or in Ht. destruct Ht as [Ht|Ht].
    + destruct (filter is_significant (split (c :: q))) as [|s l] eqn:E;
        [destruct Ht|].
      destruct Ht as [<-|[]].
      assert (Hs : In s (filter is_significant (split (c :: q))))
        by (rewrite E; left; reflexivity).
      apply filter_In in Hs. destruct Hs as (_ & Hs).
      apply significant_is_long in Hs.
      destruct s as [|x s]; [simpl in Hs; lia|].
      change (firstn 4 ((x :: s) :: l)) with ((x :: s) :: firstn 3 l).
      destruct (firstn 3 l); cbn [join app]; discriminate.
    + destruct (List.length (split (c :: q)) <=? 5)%nat; [|destruct Ht].
      destruct Ht as [<-|[]]. discriminate.
Qed.

(** X10.  A name of at most five words is itself the last term of its
    plan. *)
Theorem short_name_is_the_last_term query :
  query <> [] ->
  (List.length (split query) <= 5)%nat ->
  last (search_terms query) [] = query.
Proof.
  intros Hq Hl. unfold search_terms. destruct query as [|c q]; [congruence|].
  apply Nat.leb_le in Hl. rewrite Hl. apply last_last.
Qed.

Lemma short_name_witness :
  last (search_terms (py "iPhone 15 Pro")) [] = py "iPhone 15 Pro".
Proof.
  apply short_name_is_the_last_term; vm_compute; [discriminate | lia].
Defined.

(** ** The browser session *)

Section Keeps.

Context {A B X : Type}.
Variable f : world -> X.

Lemma keeps_ret (a : A) : keeps f (ret a).
Proof. intros w. reflexivity. Qed.

Lemma keeps_raise e : keeps f (@raise A e).
Proof. intros w. reflexivity. Qed.

Lemma keeps_lift (o : outcome A) : keeps f (lift o).
Proof. intros w. reflexivity. Qed.

Lemma keeps_bind (m : M A) (k : A -> M B) :
  keeps f m -> (forall a, keeps f (k a)) -> keeps f (bind m k).
Proof.
  intros Hm Hk w. unfold bind. specialize (Hm w).
  destruct (m w) as [[a|e] w1]; simpl in *; [|assumption].
  rewrite Hk. assumption.
Qed.

Lemma keeps_try (m : M A) h :
  keeps f m -> (forall e, keeps f (h e)) -> keeps f (try_except m h).
Proof.
  intros Hm Hh w. unfold try_except. specialize (Hm w).
  destruct (m w) as [[a|e] w1]; simpl in *; [assumption|].
  rewrite Hh. assumption.
Qed.

Lemma keeps_update g : (forall w, f (g w) = f w) -> keeps f (update g).
Proof. intros H w. apply H. Qed.

Lemma keeps_ask env (answer : list event -> outcome A) ev :
  (forall ms w, f (record_event ev ms w) = f w) -> keeps f (ask env answer ev).
Proof. intros H w. apply H. Qed.

End Keeps.

Lemma keeps_self {X} (f : world -> X) : keeps f self_.
Proof. intros w. reflexivity. Qed.

Ltac keeps_step :=
  match goal with
  | |- forall _, _ => intros
  | |- keeps _ (ret _) => apply keeps_ret
  | |- keeps _ (raise _) => apply keeps_raise
  | |- keeps _ (lift _) => apply keeps_lift
  | |- keeps _ self_ => apply keeps_self
  | |- keeps _ (bind _ _) => apply keeps_bind
  | |- keeps _ (try_except _ _) => apply keeps_try
  | |- keeps _ (ask _ _ _) => apply keeps_ask; reflexivity
  | |- keeps _ (sleep _) => apply keeps_update; reflexivity
  | |- keeps _ (update _) => apply keeps_update; reflexivity
  | |- keeps _ (match ?x with _ => _ end) => destruct x
  | |- keeps _ _ => solve [auto]
  end.

Ltac keeps_auto := repeat keeps_step.

Section Browser.

Variable env : Environment.

Lemma title_lower_keeps_browser d : keeps browser_state (title_lower env d).
Proof. unfold title_lower, driver_title. keeps_auto. Qed.

Lemma cloudflare_rounds_keep_browser n d :
  keeps browser_state (cloudflare_rounds env n d).
Proof.
  pose proof title_lower_keeps_browser.
  induction n; simpl; keeps_auto.
Qed.

Lemma pass_cloudflare_keeps_browser : keeps browser_state (_pass_cloudflare env).
Proof.
  pose proof cloudflare_rounds_keep_browser.
  unfold _pass_cloudflare, driver_get. keeps_auto.
Qed.

Lemma pass_cloudflare_returns w : fst (_pass_cloudflare env w) = Return tt.
Proof.
  unfold _pass_cloudflare, bind, self_, try_except.
  destruct (_driver w); [|reflexivity].
  match goal with |- fst (match ?x with _ => _ end) = _ => destruct x as [[[]|e] w1] end;
    reflexivity.
Qed.

(** Opening a browser either stores the new driver and returns it, or
    changes neither the driver nor the flag and returns [None]. *)
Lemma open_browser_spec start w :
  keeps browser_state start ->
  (exists d w', open_browser env start w = (Return (Some d), w')
                /\ _driver w' = Some d)
  \/ (exists w', open_browser env start w = (Return None, w')
                 /\ browser_state w' = browser_state w).
Proof.
  intros Hs. unfold open_browser, try_except, bind, update, self_, ret.
  specialize (Hs w). destruct (start w) as [[d|e] w1]; cbn [fst snd] in Hs.
  - left. exists d. set (w2 := set_driver (Some d) w1).
    destruct (_cloudflare_passed w2).
    + exists w2. split; reflexivity.
    + pose proof (pass_cloudflare_returns w2) as R.
      pose proof (pass_cloudflare_keeps_browser w2) as K.
      destruct (_pass_cloudflare env w2) as [r w3]; cbn [fst snd] in R, K.
      subst r. apply (f_equal fst) in K. cbn [fst browser_state] in K.
      exists w3. rewrite K. split; reflexivity.
  - right. exists w1. split; [reflexivity | assumption].
Qed.

(** X11.  [_get_driver] never raises.  What it returns is the driver the
    scraper now holds; it returns [None] only with no driver held and the
    failure flag set, and in that state it answers [None] at once, without a
    request and without a second try. *)
Theorem get_driver_spec w :
  (exists r w', _get_driver env w = (Return r, w')
                /\ match r with
                   | Some d => _driver w' = Some d
                   | None => _driver w' = None /\ _driver_failed w' = true
                   end)
  /\ (_driver w = None -> _driver_failed w = true ->
      _get_driver env w = (Return None, w)).
Proof.
  split.
  - unfold _get_driver, bind at 1, self_.
    destruct (_driver w) as [d|] eqn:D;
      [exists (Some d), w; split; [reflexivity | assumption]|].
    destruct (_driver_failed w) eqn:F;
      [exists None, w; repeat split; assumption|].
    unfold bind at 1.
    set (start1 := ask env (answer_driver env) _).
    assert (K1 : keeps browser_state start1) by (subst start1; keeps_auto).
    assert (Step1 : exists o1 w1,
               (if UNDETECTED_AVAILABLE env then open_browser env start1 else ret None) w
               = (Return o1, w1)
               /\ match o1 with
                  | Some d => _driver w1 = Some d
                  | None => _driver w1 = None
                  end).
    { destruct (UNDETECTED_AVAILABLE env).
      - destruct (open_browser_spec start1 w K1)
          as [(d & w1 & -> & Hd)|(w1 & -> & Hb)];
          eexists _, _; (split; [reflexivity|]); [assumption|].
        apply (f_equal fst) in Hb. cbn [fst browser_state] in Hb. congruence.
      - exists None, w. split; [reflexivity | assumption]. }
    destruct Step1 as (o1 & w1 & -> & H1).
    destruct o1 as [d|];
      [exists (Some d), w1; split; [reflexivity | assumption]|].
    unfold bind at 1.
    set (start2 := if WEBDRIVER_MANAGER_AVAILABLE env then _ else _).
    assert (K2 : keeps browser_state start2) by (subst start2; keeps_auto).
    assert (Step2 : exists o2 w2,
               (if SELENIUM_AVAILABLE env then open_browser env start2 else ret None) w1
               = (Return o2, w2)
               /\ match o2 with
                  | Some d => _driver w2 = Some d
                  | None => _driver w2 = None
                  end).
    { destruct (SELENIUM_AVAILABLE env).
      - destruct (open_browser_spec start2 w1 K2)
          as [(d & w2 & -> & Hd)|(w2 & -> & Hb)];
          eexists _, _; (split; [reflexivity|]); [assumption|].
        apply (f_equal fst) in Hb. cbn [fst browser_state] in Hb. congruence.
      - exists None, w1. split; [reflexivity | assumption]. }
    destruct Step2 as (o2 & w2 & -> & H2).
    destruct o2 as [d|];
      [exists (Some d), w2; split; [reflexivity | assumption]|].
    unfold bind, update, ret. eexists _, _. split; [reflexivity|].
    split; [exact H2 | reflexivity].
  - intros D F. unfold _get_driver, bind, self_. rewrite D, F. reflexivity.
Qed.

End Browser.

Lemma get_driver_witness :
  _get_driver offline_env
    (set_driver_failed true (__init__ false true None 0 []))
  = (Return None, set_driver_failed true (__init__ false true None 0 [])).
Proof.
  apply (proj2 (get_driver_spec offline_env _)); reflexivity.
Defined.

(** X12.  A [WebDriverException] in an attempt is final for the scraper:
    the attempt returns the record "Erro WebDriver" with the first hundred
    characters of the message, drops the driver and sets the failure flag;
    from then on every attempt answers "WebDriver não disponível" and every
    search answers not found, both without any request or pause. *)
Theorem webdriver_failure_is_final env term w e w1 :
  SELENIUM_AVAILABLE env = true ->
  search_with_selenium_body env term w = (Raise e, w1) ->
  exn_kind e = WebDriverException ->
  let w2 := set_driver None (set_driver_failed true w1) in
  _search_with_selenium env term w
  = (Return (error_record (py "Erro WebDriver: " ++ upto 100 (exn_str e))), w2)
  /\ (forall term',
        _search_with_selenium env term' w2
        = (Return (error_record (py "WebDriver não disponível")), w2))
  /\ (forall query ean,
        search_terms query <> [] ->
        search_product env query ean w2 = (Return not_found, w2)).
Proof.
  intros S E K w2. split; [|split].
  - unfold _search_with_selenium, try_except. rewrite E.
    unfold selenium_handlers. rewrite S, K. reflexivity.
  - intros term'. unfold _search_with_selenium, try_except,
      search_with_selenium_body, _get_driver, bind, self_. reflexivity.
  - intros query ean Ht. apply search_product_disabled; [assumption|].
    subst w2. simpl. apply andb_false_r.
Qed.

Lemma webdriver_failure_witness :
  let w1 := snd (search_with_selenium_body offline_env (py "iPhone") fresh) in
  let w2 := set_driver None (set_driver_failed true w1) in
  _search_with_selenium offline_env (py "Galaxy") w2
  = (Return (error_record (py "WebDriver não disponível")), w2).
Proof.
  intros w1 w2.
  assert (S : SELENIUM_AVAILABLE offline_env = true) by reflexivity.
  assert (E : search_with_selenium_body offline_env (py "iPhone") fresh
              = (Raise (mk_exn WebDriverException
                          (py "net::ERR_INTERNET_DISCONNECTED")), w1))
    by (vm_compute; reflexivity).
  exact (proj1 (proj2 (webdriver_failure_is_final offline_env (py "iPhone")
                         fresh _ w1 S E eq_refl)) (py "Galaxy")).
Defined.

(** ** Waiting for the page *)

Lemma wait_rounds_spec env d n : forall start w,
  start <= clock w ->
  10000 <= clock w - start + 500 * N.of_nat n ->
  exists b w',
    wait_rounds env n d start w = (Return b, w')
    /\ clock w <= clock w'
    /\ (b = false -> 10000 <= clock w' - start).
Proof.
  induction n as [|n IH]; intros start w Hs Hn.
  - assert (T : (clock w - start <? 10000) = false) by (apply N.ltb_ge; lia).
    rewrite wait_rounds_timeout by assumption.
    exists false, w. repeat split; try lia.
  - destruct (clock w - start <? 10000) eqn:T.
    + rewrite wait_rounds_round by assumption.
      destruct (poll_title_clock env d w) as (H1 & H2 & H3).
      destruct (poll_title env d w) as [[p|e] w1]; cbn [fst snd] in H1, H2, H3;
        [|exfalso; eapply H3; reflexivity].
      destruct p.
      * exists true, w1. repeat split; [assumption | discriminate].
      * specialize (H2 eq_refl).
        destruct (IH start w1) as (b & w' & -> & Hc & Hb); try lia.
        exists b, w'. repeat split; [lia | assumption].
      * destruct (IH start (record_event (EvSleep 500) 500 w1))
          as (b & w' & -> & Hc & Hb); cbn [clock record_event] in *; try lia.
        exists b, w'. repeat split; [lia | assumption].
    + rewrite wait_rounds_timeout by assumption.
      apply N.ltb_ge in T. exists false, w. repeat split; lia.
Qed.

(** X13.  [_wait_for_page_load] never raises, whatever the browser does,
    and it gives up, returning [False], only when ten seconds have gone by
    since it started. *)
Theorem wait_for_page_load_spec env d w :
  exists b w',
    _wait_for_page_load env d w = (Return b, w')
    /\ clock w <= clock w'
    /\ (b = false -> 10000 <= clock w' - clock w).
Proof.
  unfold _wait_for_page_load, bind, time_time.
  apply wait_rounds_spec; lia.
Qed.

(** ** The static fetch *)

(** X14.  When the HTTP session raises, [_search_with_requests] turns a
    timeout and any other error of [requests] into an error record, the
    latter with the first hundred characters of the message, and lets every
    other exception through to its caller. *)
Theorem requests_errors env bs term w q e :
  quote_plus env term = Return q ->
  answer_response env (EvHttpGet (SEARCH_URL ++ py "?query=" ++ q) 15 :: events w)
  = Raise e ->
  fst (_search_with_requests env bs term w)
  = match exn_kind e with
    | RequestsTimeout => Return (error_record (py "Timeout na requisição"))
    | RequestException =>
      Return (error_record (py "Erro na requisição: " ++ upto 100 (exn_str e)))
    | _ => Raise e
    end.
Proof.
  intros Hq He.
  unfold _search_with_requests, try_except, bind, lift, session_get, ask.
  rewrite Hq, He. unfold requests_handlers. destruct (exn_kind e); reflexivity.
Qed.

Lemma requests_errors_witness :
  fst (_search_with_requests offline_env no_soup (py "iPhone") fresh)
  = Return (error_record (py "Timeout na requisição")).
Proof.
  exact (requests_errors offline_env no_soup (py "iPhone") fresh (py "iPhone")
           (mk_exn RequestsTimeout (py "timed out")) eq_refl eq_refl).
Defined.

(** X23.  [_search_with_requests] sends exactly one request, to the search
    address with the quoted term and a timeout of fifteen seconds, whatever
    the answer is; when quoting the term fails nothing is sent. *)
Theorem search_with_requests_sends_one_request env bs term w :
  http_requests (snd (_search_with_requests env bs term w))
  = match quote_plus env term with
    | Return q => EvHttpGet (SEARCH_URL ++ py "?query=" ++ q) 15 :: http_requests w
    | Raise _ => http_requests w
    end.
Proof.
  destruct (quote_plus env term) as [q|e] eqn:Hq.
  - apply search_with_requests_is_not_quiet. exact Hq.
  - unfold _search_with_requests, try_except, bind, lift. rewrite Hq.
    unfold requests_handlers. destruct (exn_kind e); reflexivity.
Qed.

(** ** Records read from page text *)

Lemma priced_error msg : priced (error_record msg).
Proof. split; [reflexivity | discriminate]. Qed.

Lemma priced_fields n u p s :
  (forall d, p = Some d -> positive d) ->
  priced {| name := n; url := u; price := p; seller := s;
            is_available := PBool (is_some p); error := None |}.
Proof. intros H. split; [reflexivity | exact H]. Qed.

Section Priced.

Variable env : Environment.

Lemma price_card_from_positive c selectors :
  returns (fun p => forall d, p = Some d -> positive d)
          (price_card_from env c selectors).
Proof.
  induction selectors as [|sel rest IH]; simpl.
  - apply returns_ret. discriminate.
  - apply returns_bind
      with (Q := fun r => forall p, r = Some p -> forall d, p = Some d -> positive d).
    + apply returns_try.
      * do 2 (apply returns_then; intros). apply returns_ret.
        intros p [= <-] d. apply parse_price_positive.
      * intros e. apply returns_ret. discriminate.
    + intros [p|] Hq; [apply returns_ret; eauto | exact IH].
Qed.

Lemma extract_price_card_positive c :
  returns (fun p => forall d, p = Some d -> positive d)
          (_extract_price_card env c).
Proof.
  unfold _extract_price_card. destruct (negb (SELENIUM_AVAILABLE env)).
  - apply returns_ret. discriminate.
  - apply price_card_from_positive.
Qed.

Lemma priced_extract_from_search_dom d :
  returns priced (_extract_from_search_dom env d).
Proof.
  unfold _extract_from_search_dom.
  destruct (negb (SELENIUM_AVAILABLE env));
    [apply returns_ret; apply priced_error|].
  apply returns_try; [|intros e; apply returns_ret; apply priced_error].
  apply returns_then. intros [product|];
    [|apply returns_ret; apply priced_error].
  do 2 (apply returns_then; intros).
  eapply returns_bind; [apply extract_price_card_positive|].
  intros p Hp. apply returns_then. intros s.
  apply returns_ret. apply priced_fields. exact Hp.
Qed.

End Priced.

Lemma price_html_from_positive bs t selectors d :
  price_html_from bs t selectors = Return (Some d) -> positive d.
Proof.
  induction selectors as [|sel rest IH]; simpl; [discriminate|].
  intros E. apply obind_Return in E. destruct E as ([e|] & _ & E); [|auto].
  apply obind_Return in E. destruct E as (x & _ & E).
  destruct (_parse_price x) as [p|] eqn:P; [|auto].
  destruct (Decimal_bool p); [|auto].
  inversion E; subst. eapply parse_price_positive; eauto.
Qed.

Lemma priced_extract_from_search_html bs html :
  priced (_extract_from_search_html bs html).
Proof.
  unfold _extract_from_search_html.
  destruct (search_html_body bs html) as [r|e] eqn:E; [|apply priced_error].
  unfold search_html_body in E.
  apply obind_Return in E. destruct E as (soup & _ & E).
  apply obind_Return in E. destruct E as ([product|] & _ & E).
  - apply obind_Return in E. destruct E as (l & _ & E).
    apply obind_Return in E. destruct E as (link & _ & E).
    apply obind_Return in E. destruct E as (u & _ & E).
    apply obind_Return in E. destruct E as (n & _ & E).
    apply obind_Return in E. destruct E as (p & Hp & E).
    apply obind_Return in E. destruct E as (s & _ & E).
    inversion E; subst. apply priced_fields.
    intros d ->. eapply price_html_from_positive. exact Hp.
  - inversion E. apply priced_error.
Qed.

(** X15.  The two extractors that read the price from page text, the
    cards of the rendered page and the static HTML, always return a record;
    it is available exactly when it has a price, and a price it has is
    positive. *)
Theorem text_extractors_price env bs :
  (forall d w, exists r w',
      _extract_from_search_dom env d w = (Return r, w') /\ priced r)
  /\ (forall html, priced (_extract_from_search_html bs html)).
Proof.
  split; [|apply priced_extract_from_search_html].
  intros d w.
  destruct (_extract_from_search_dom env d w) as [[r|e] w'] eqn:E.
  - exists r, w'. split; [reflexivity|].
    exact (priced_extract_from_search_dom env d w r w' E).
  - exfalso. revert E. unfold _extract_from_search_dom.
    destruct (negb (SELENIUM_AVAILABLE env)); [discriminate|].
    unfold try_except.
    match goal with |- context [match ?m w with _ => _ end] =>
      destruct (m w) as [[a|e0] w1] end; discriminate.
Qed.

(** ** Error texts *)

Lemma short_literal msg :
  (List.length msg <= 122)%nat -> short_error (error_record msg).
Proof. intros H m [= <-]. exact H. Qed.

Lemma short_truncated prefix s :
  (List.length prefix <= 22)%nat ->
  short_error (error_record (prefix ++ upto 100 s)).
Proof.
  intros H. apply short_literal. rewrite length_app. unfold upto.
  rewrite length_firstn. lia.
Qed.

Lemma short_no_error r : error r = None -> short_error r.
Proof. intros H m E. congruence. Qed.

Lemma short_parse_product_json product : short_error (_parse_product_json product).
Proof.
  unfold _parse_product_json.
  destruct (parse_product_json_body product) as [r|e] eqn:E.
  - apply short_no_error. apply parse_product_json_body_fields in E. tauto.
  - apply short_literal. vm_compute. lia.
Qed.

Lemma short_page_data env html r :
  _extract_from_page_data env html = Some r -> short_error r.
Proof.
  intros H. apply page_data_parsed in H. destruct H as (p & ->).
  apply short_parse_product_json.
Qed.

Lemma short_set_url r u : short_error r -> short_error (set_url r u).
Proof. intros H. exact H. Qed.

Create HintDb short.
#[export] Hint Resolve short_parse_product_json short_page_data short_set_url
  short_no_error : short.

Ltac short_leaf :=
  first
    [ solve [eauto with short]
    | apply short_literal; vm_compute; lia
    | apply short_truncated; vm_compute; lia
    | apply short_no_error; reflexivity ].

Ltac short_step :=
  match goal with
  | |- forall _, _ => intros
  | |- returns _ (raise _) => apply returns_raise
  | |- returns _ (ret _) => apply returns_ret; short_leaf
  | |- returns _ (try_except _ _) => apply returns_try
  | |- returns _ (match ?x with _ => _ end) => destruct x eqn:?
  | |- returns _ _ => solve [eauto with short]
  | |- returns _ (bind _ _) => apply returns_then
  end.

Ltac short_auto := repeat short_step.

Section Short.

Variable env : Environment.

Lemma short_extract_product_page d u :
  returns short_error (_extract_product_page env d u).
Proof. unfold _extract_product_page. cbv zeta. short_auto. Qed.

Lemma short_extract_from_search_dom d :
  returns short_error (_extract_from_search_dom env d).
Proof. unfold _extract_from_search_dom. short_auto. Qed.
Hint Resolve short_extract_product_page short_extract_from_search_dom : short.

Lemma short_search_with_selenium term :
  returns short_error (_search_with_selenium env term).
Proof.
  unfold _search_with_selenium, search_with_selenium_body, selenium_handlers.
  short_auto.
Qed.

Lemma short_try_terms terms :
  returns (fun o => forall r, o = Some r -> short_error r) (try_terms env terms).
Proof.
  induction terms as [|term rest IH]; simpl.
  - apply returns_ret. discriminate.
  - eapply returns_bind; [apply short_search_with_selenium|].
    intros r Hr. destruct (acceptable r).
    + apply returns_ret. intros r' [= <-]. assumption.
    + apply returns_then. intros _. assumption.
Qed.

End Short.

(** X16.  Error texts are bounded: whatever exception message went into
    it, the error of a record returned by [search_product] has at most
    122 characters. *)
Theorem search_product_error_is_short env query ean w r w' msg :
  search_product env query ean w = (Return r, w') ->
  error r = Some msg ->
  (List.length msg <= 122)%nat.
Proof.
  intros E. revert msg. change (short_error r).
  revert w r w' E. change (returns short_error (search_product env query ean)).
  unfold search_product. destruct (search_terms query) as [|t l].
  - apply returns_ret. apply short_literal. vm_compute. lia.
  - apply returns_then. intros self.
    eapply returns_bind with (Q := fun o => forall r, o = Some r -> short_error r).
    + destruct (_ && _); [apply short_try_terms|].
      apply returns_ret. discriminate.
    + intros [r|] H; apply returns_ret; [auto|].
      apply short_literal. vm_compute. lia.
Qed.

Lemma search_product_error_is_short_witness :
  (List.length (py "Produto não encontrado na Worten") <= 122)%nat.
Proof.
  exact (search_product_error_is_short offline_env (py "iPhone 15 Pro") None fresh
           not_found
           (snd (search_product offline_env (py "iPhone 15 Pro") None fresh))
           (py "Produto não encontrado na Worten")
           ltac:(vm_compute; reflexivity) eq_refl).
Defined.

(** ** The batch endpoint *)

Example scrape_two_rows :
  fst (scrape shop_env db_up None two_rows empty_site)
  = Return (response.mkTally 2 1 0 1).
Proof. vm_compute. reflexivity. Qed.

Example scrape_database_down :
  fst (scrape shop_env db_down None two_rows empty_site)
  = Raise (mk_exn OtherException (py "database is locked")).
Proof. vm_compute. reflexivity. Qed.

Section BatchProperties.

Variable env : Environment.
Variable db_save : list models.Product -> outcome unit.

Lemma count_result_counts c result :
  classified (count_result c result) = S (classified c)
  /\ response.scraped (count_result c result) = S (response.scraped c).
Proof.
  unfold count_result, classified.
  destruct (truthy (is_available result)); [simpl; lia|].
  destruct (error result) as [[|x m]|]; simpl; lia.
Qed.




End BatchProperties.



Lemma search_product_returns env query ean w :
  wf env w ->
  exists r w',
    search_product env query ean w = (Return r, w') /\ wf env w' /\ built r.
Proof.
  intros H.
  assert (R : exists r w',
             search_product env query ean w = (Return r, w') /\ wf env w').
  { unfold search_product. destruct (search_terms query) as [|t l] eqn:T.
    - exists (error_record (py "Nenhum termo de busca informado")), w.
      split; [reflexivity | assumption].
    - unfold bind at 1, self_. unfold bind at 1.
      destruct (use_selenium w && negb (_driver_failed w)).
      + destruct (try_terms_spec env (t :: l) w H)
          as [(before & term & after & w1 & r' & w3 & _ & _ & _ & _ & -> & H3)
             |(w2 & _ & -> & H2)]; unfold ret; eauto.
      + unfold ret. eauto. }
  destruct R as (r & w' & E & Hw). exists r, w'.
  repeat split; try assumption. eapply built_search_product. exact E.
Qed.

Section BatchRuns.

Variable env : Environment.
Variable db_save : list models.Product -> outcome unit.

Lemma scrape_loop_with_database_up products :
  (forall h, db_save h = Return tt) ->
  forall c s,
    wf env (scraper s) ->
    exists c' s' rows,
      scrape_loop env db_save c products s = (Return c', s')
      /\ saves s' = rev rows ++ saves s
      /\ map models.original_id rows = map models.original_id products
      /\ response.scraped c' = (response.scraped c + List.length products)%nat
      /\ response.found c'
         = (response.found c
            + List.length (filter (fun row => truthy (models.is_available row))
                             rows))%nat
      /\ Forall row_consistent rows.
Proof.
  intros Hdb. induction products as [|product rest IH]; intros c s Hw.
  - exists c, s, []. simpl. repeat split; try lia. constructor.
  - destruct (search_product_returns env (models.original_name product)
                (Some (models.ean product)) (scraper s) Hw)
      as (r & w1 & E & Hw1 & Hb).
    set (row := store_result product r (clock w1)).
    set (s1 := mkSite w1 (row :: saves s)).
    assert (One : scrape_one env db_save c product s
                  = (Return (count_result c r), s1)).
    { unfold scrape_one. rewrite E. unfold save. rewrite Hdb. reflexivity. }
    destruct (IH (count_result c r) s1 Hw1)
      as (c' & s' & rows & L & Hs & Hid & Hsc & Hf & Hc).
    exists c', s', (row :: rows). cbn [scrape_loop]. rewrite One.
    split; [exact L|]. split.
    { rewrite Hs. simpl. rewrite <- app_assoc. reflexivity. }
    split; [simpl; f_equal; exact Hid|].
    destruct (count_result_counts c r) as (_ & Hsc1).
    split; [simpl; lia|]. split.
    + rewrite Hf. unfold count_result. cbn [filter row store_result models.is_available].
      destruct (truthy (is_available r)); [simpl; lia|].
      destruct (error r) as [[|x m]|]; simpl; lia.
    + constructor; [|exact Hc].
      unfold row_consistent. simpl. apply built_consistent. exact Hb.
Qed.



End BatchRuns.

(** X18.  With a database that accepts every row, the scrape endpoint
    completes for any list of products: each product is saved exactly once
    and in order, [scraped] is their number, [found] is the number of rows
    saved as available, and no row is saved both with an error and as
    available. *)
Theorem scrape_with_database_up env db_save version products s :
  (forall h, db_save h = Return tt) ->
  exists c s' rows,
    scrape env db_save version products s = (Return c, s')
    /\ saves s' = rev rows ++ saves s
    /\ map models.original_id rows = map models.original_id products
    /\ response.scraped c = List.length products
    /\ response.found c
       = List.length (filter (fun row => truthy (models.is_available row)) rows)
    /\ Forall row_consistent rows.
Proof.
  intros Hdb. unfold scrape.
  destruct (scrape_loop_with_database_up env db_save products Hdb
              (response.mkTally 0 0 0 0)
              (mkSite (__init__ false true version (clock (scraper s))
                         (events (scraper s))) (saves s))
              (wf_fresh env _ _ _ _ _))
    as (c & s' & rows & L & Hs & Hid & Hsc & Hf & Hc).
  exists c, s', rows. repeat split; assumption.
Qed.

Lemma scrape_with_database_up_witness :
  exists c s' rows,
    scrape shop_env db_up None two_rows empty_site = (Return c, s')
    /\ saves s' = rev rows ++ saves empty_site
    /\ map models.original_id rows = map models.original_id two_rows
    /\ response.scraped c = List.length two_rows
    /\ response.found c
       = List.length (filter (fun row => truthy (models.is_available row)) rows)
    /\ Forall row_consistent rows.
Proof.
  apply scrape_with_database_up. intros h. reflexivity.
Defined.



(** ** What reaches the caller *)

Lemma acceptable_try_terms env terms :
  returns (fun o => forall r, o = Some r -> acceptable r = true)
          (try_terms env terms).
Proof.
  induction terms as [|term rest IH]; simpl.
  - apply returns_ret. discriminate.
  - apply returns_then. intros r. destruct (acceptable r) eqn:A.
    + apply returns_ret. intros r' [= <-]. assumption.
    + apply returns_then. intros _. assumption.
Qed.

Lemma search_product_cases env query ean :
  returns (fun r => acceptable r = true \/ r = not_found \/ r = no_terms)
          (search_product env query ean).
Proof.
  unfold search_product. destruct (search_terms query) as [|t l].
  - apply returns_ret. right. right. reflexivity.
  - apply returns_then. intros self.
    eapply returns_bind
      with (Q := fun o => forall r, o = Some r -> acceptable r = true).
    + destruct (_ && _); [apply acceptable_try_terms|].
      apply returns_ret. discriminate.
    + intros [r|] H; apply returns_ret; [left; auto | right; left; reflexivity].
Qed.

(** X20.  The caller of [search_product] sees an acceptable record or one
    of two error records, "no search term" and "not found": the error of an
    attempt (a timeout, a browser error, an empty result page) never reaches
    it. *)
Theorem search_product_results env query ean w r w' :
  search_product env query ean w = (Return r, w') ->
  acceptable r = true \/ r = not_found \/ r = no_terms.
Proof. apply search_product_cases. Qed.

Lemma search_product_results_witness :
  acceptable not_found = true \/ not_found = not_found \/ not_found = no_terms.
Proof.
  exact (search_product_results offline_env (py "iPhone 15 Pro") None fresh
           not_found
           (snd (search_product offline_env (py "iPhone 15 Pro") None fresh))
           ltac:(vm_compute; reflexivity)).
Defined.

(** X21.  How the endpoint counts a search: as found when the record is
    available, as not found when the record is acceptable without being
    available (it has an address and no price), and as an error in every
    other case, which includes the product that was not found at all. *)
Theorem scrape_counts_by_result env query ean w r w' c :
  search_product env query ean w = (Return r, w') ->
  count_result c r
  = if truthy (is_available r) then found_plus_1 (scraped_plus_1 c)
    else if acceptable r then not_found_plus_1 (scraped_plus_1 c)
    else errors_plus_1 (scraped_plus_1 c).
Proof.
  intros E. pose proof (built_search_product env query ean w r w' E) as Hb.
  apply search_product_cases in E. unfold count_result.
  destruct (truthy (is_available r)) eqn:T; [reflexivity|].
  destruct E as [A|[->| ->]]; [|reflexivity|reflexivity].
  rewrite A. destruct Hb as [(msg & ->)|(He & _)].
  - unfold acceptable in A. simpl in A. discriminate.
  - rewrite He. reflexivity.
Qed.

Lemma scrape_counts_by_result_witness :
  count_result (response.mkTally 0 0 0 0) not_found
  = errors_plus_1 (scraped_plus_1 (response.mkTally 0 0 0 0)).
Proof.
  exact (scrape_counts_by_result offline_env (py "iPhone 15 Pro") None fresh
           not_found
           (snd (search_product offline_env (py "iPhone 15 Pro") None fresh))
           (response.mkTally 0 0 0 0) ltac:(vm_compute; reflexivity)).
Defined.

(** ** The product page *)

(** X22.  A record read from a product page carries the address the
    browser ended on and no error, whether it came from the embedded payload
    or from the page elements. *)
Theorem product_page_record env d u w r w' :
  _extract_product_page env d u w = (Return r, w') ->
  url r = Some u /\ error r = None.
Proof.
  revert w r w'.
  change (returns (fun r => url r = Some u /\ error r = None)
                  (_extract_product_page env d u)).
  unfold _extract_product_page. apply returns_then. intros source. cbv zeta.
  match goal with
  | |- returns _ (match _ with Some _ => if _ then _ else ?m | None => _ end) =>
    assert (Hdom : returns (fun r => url r = Some u /\ error r = None) m)
  end.
  { do 3 (apply returns_then; intros). apply returns_ret. split; reflexivity. }
  destruct (_extract_from_page_data env source) as [r|] eqn:E; [|assumption].
  destruct (truthy (name r)) eqn:T; [|assumption].
  apply returns_ret. split; [reflexivity|].
  apply built_page_data in E. destruct E as [(msg & ->)|(He & _)];
    [discriminate | exact He].
Qed.

Lemma product_page_record_witness :
  url (set_url (_parse_product_json widget)
               (py "https://www.worten.pt/produtos/widget-123"))
  = Some (py "https://www.worten.pt/produtos/widget-123")
  /\ error (set_url (_parse_product_json widget)
                    (py "https://www.worten.pt/produtos/widget-123"))
     = None.
Proof.
  exact (product_page_record shop_env 1%nat
           (py "https://www.worten.pt/produtos/widget-123") fresh
           (set_url (_parse_product_json widget)
                    (py "https://www.worten.pt/produtos/widget-123"))
           (snd (_extract_product_page shop_env 1%nat
                   (py "https://www.worten.pt/produtos/widget-123") fresh))
           ltac:(vm_compute; reflexivity)).
Defined.
